(** * The outline model of [lib/orgmode.js]

    A shallow embedding of the three classes of [lib/orgmode.js]
    ([OutlinesArrayList], [OutlineNode], [Orgmode]) over an explicit object
    store, followed by the properties of the outline model.

    Objects that the program shares or decorates live in the store and are
    named by locations: the heading-entries produced by the parser (which
    [_buildOutlines] decorates with [_node]), the [OutlineNode] wrappers, and
    the tag arrays (which a heading and its wrapper both point to). *)

From stdpp Require Import gmap strings list.

Local Open Scope Z_scope.

(** ** JavaScript values and outcomes *)

Definition loc := positive.

(** What a property read or a method can hand back where an object is
    expected: an object reference, [null] or [undefined]. *)
Inductive ref : Type :=
  | Obj (l : loc)
  | Null
  | Undefined.

Global Instance ref_eq_dec : EqDecision ref.
Proof. solve_decision. Defined.

(** [curr && ...]: only an object reference is truthy among [ref]s. *)
Definition truthy (r : ref) : bool :=
  match r with Obj _ => true | _ => false end.

(** The "none" of the outline model: [null] or [undefined]. *)
Definition absent (r : ref) : bool := negb (truthy r).

(** A computation either returns or raises [TypeError] (the only exception
    the modelled code can raise: a property read on [undefined], or
    [Object.defineProperty] on a property that cannot be redefined). *)
Inductive res (A : Type) : Type :=
  | Val (a : A)
  | TypeError.
Arguments Val {A} a.
Arguments TypeError {A}.

(** [a[i]] on an array, for an integer [i]: [None] stands for [undefined]
    (negative or past the end). *)
Definition array_get {A : Type} (a : list A) (i : Z) : option A :=
  if decide (0 ≤ i) then a !! Z.to_nat i else None.

Definition ref_of (o : option loc) : ref :=
  match o with Some l => Obj l | None => Undefined end.

(** ** The AST handed over by the parser

    [./parser] is not among the sources: the shape of its result is taken
    from the outline model's data model and from the properties that
    [lib/orgmode.js] reads. *)

Module Heading.
(** Modelled from the spec: the heading of a heading-entry of the parser's
    AST, [{title, level, tags}].  [tags] is a reference to an array of
    strings held in the store. *)
Record t := mk { title : string; level : Z; tags : loc }.
End Heading.

Module Element.
(** Modelled from the spec: a section-element of the parser's AST, a tagged
    variant; [type] is its variant tag, [body] stands for its content. *)
Record t := mk { type : string; body : string }.
End Element.

Module Sect.
(** Modelled from the spec: the section of a heading-entry of the parser's
    AST, with its ordered children. *)
Record t := mk { children : list Element.t }.
End Sect.

Module Entry.
(** Modelled from the spec: a heading-entry of the parser's AST,
    [{heading, section}], an ordinary extensible object.  [_node] is the
    property that [_buildOutlines] defines on the entry with
    [Object.defineProperty]: [None] while the entry has no [_node], [Some n]
    once it has the accessor, not configurable, that returns the node [n].
    An entry on which some other code has assigned [_node] is not
    represented. *)
Record t := mk { heading : Heading.t; section : Sect.t; _node : option loc }.
End Entry.

Module Opt.
(** Modelled from the spec: a document-level option of the parser's AST. *)
Record t := mk { name : string; value : string }.
End Opt.

Module Block.
(** Modelled from the spec: a document-level named block of the parser's
    AST; [body] stands for its opaque content. *)
Record t := mk { name : string; body : string }.
End Block.

Module Ast.
(** Modelled from the spec: the AST object that the parser returns.
    [outlines] is the array of references to the heading-entries. *)
Record t := mk {
  outlines : list loc;
  options : list Opt.t;
  blocks : list Block.t
}.
End Ast.

(** ** Instances of the three classes *)

Module NodeObj.
(** An [OutlineNode]: the three closed-over values [_data], [_list],
    [_index] and the three own properties set by the constructor. *)
Record t := mk {
  _data : loc;
  _list : list loc;
  _index : Z;
  title : string;
  level : Z;
  tags : loc
}.
End NodeObj.

Module ListObj.
(** An [OutlinesArrayList]: its array of [OutlineNode] references. *)
Record t := mk { _outlines : list loc }.
End ListObj.

Module DocObj.
(** An [Orgmode] document: an [OutlinesArrayList] with its AST. *)
Record t := mk { _outlines : list loc; _ast : Ast.t }.
Definition super (d : t) : ListObj.t := ListObj.mk (_outlines d).
End DocObj.

(** ** The object store *)

Record Store := mkStore {
  arrays : gmap loc (list string);
  entries : gmap loc Entry.t;
  nodes : gmap loc NodeObj.t
}.

Definition set_entries (f : gmap loc Entry.t → gmap loc Entry.t) (st : Store) : Store :=
  mkStore (arrays st) (f (entries st)) (nodes st).

Definition set_nodes (f : gmap loc NodeObj.t → gmap loc NodeObj.t) (st : Store) : Store :=
  mkStore (arrays st) (entries st) (f (nodes st)).

Definition set_arrays (f : gmap loc (list string) → gmap loc (list string)) (st : Store) : Store :=
  mkStore (f (arrays st)) (entries st) (nodes st).

(** ** Store-passing computations *)

Definition M (A : Type) : Type := Store → res (A * Store).

Definition ret {A : Type} (a : A) : M A := λ st, Val (a, st).

Definition bind {A B : Type} (m : M A) (k : A → M B) : M B :=
  λ st, match m st with
        | Val (a, st') => k a st'
        | TypeError => TypeError
        end.

Notation "'let*' x ':=' m 'in' k" := (bind m (λ x, k))
  (at level 10, x name, m at level 100, k at level 200, only parsing).

(** ** Writes a client can perform on a heading after it has been wrapped

    These are not methods of the library: they are the JavaScript
    assignments [data.heading.title = s], [data.heading.level = z],
    [data.heading.tags = a] and the in-place [data.heading.tags.push(x)],
    needed to say what a later change of the source heading does. *)

Definition with_heading (h : Heading.t) (e : Entry.t) : Entry.t :=
  Entry.mk h (Entry.section e) (Entry._node e).

Definition set_heading_title (data : loc) (s : string) (st : Store) : Store :=
  set_entries (alter (λ e, with_heading
    (Heading.mk s (Heading.level (Entry.heading e)) (Heading.tags (Entry.heading e))) e) data) st.

Definition set_heading_level (data : loc) (z : Z) (st : Store) : Store :=
  set_entries (alter (λ e, with_heading
    (Heading.mk (Heading.title (Entry.heading e)) z (Heading.tags (Entry.heading e))) e) data) st.

Definition set_heading_tags (data : loc) (a : loc) (st : Store) : Store :=
  set_entries (alter (λ e, with_heading
    (Heading.mk (Heading.title (Entry.heading e)) (Heading.level (Entry.heading e)) a) e) data) st.

Definition heading_tags_push (data : loc) (x : string) (st : Store) : Store :=
  match entries st !! data with
  | Some e => set_arrays (alter (λ a, a ++ [x]) (Heading.tags (Entry.heading e))) st
  | None => st
  end.

(** ** Objects used as maps *)

(** [map[key] = value] for a string [value], on an object that the literal
    [{}] created, seen as the finite map of its own properties.  The object
    inherits from [Object.prototype], whose only accessor property is
    [__proto__]: an assignment under that key runs the inherited setter,
    which ignores a string and creates no own property.  Every other key
    becomes (or updates) an own property. *)
Definition object_set (map : gmap string string) (key value : string) : gmap string string :=
  if decide (key = "__proto__") then map else <[key := value]> map.

(** ** Array callbacks that may raise *)

(** [a.reduce(f, acc)] and [a.filter(p)] where the callback reads
    properties and so may raise; the first exception aborts the call. *)
Fixpoint reduce {A B : Type} (f : B → A → res B) (a : list A) (acc : B) : res B :=
  match a with
  | [] => Val acc
  | x :: a' =>
    match f acc x with
    | Val acc' => reduce f a' acc'
    | TypeError => TypeError
    end
  end.

Fixpoint filter_cb {A : Type} (p : A → res bool) (a : list A) : res (list A) :=
  match a with
  | [] => Val []
  | x :: a' =>
    match p x with
    | Val b =>
      match filter_cb p a' with
      | Val r => Val (if b then x :: r else r)
      | TypeError => TypeError
      end
    | TypeError => TypeError
    end
  end.

Definition res_map {A B : Type} (f : A → B) (r : res A) : res B :=
  match r with Val a => Val (f a) | TypeError => TypeError end.

(** ** class OutlineNode *)

Module OutlineNode.

(** [new OutlineNode(data, {index, list})]: reads the heading through
    [data] once and stores the three values in the new object.  The tags
    are stored as the heading's own array reference. *)
Definition new (data : loc) (index : Z) (list : option (list loc)) : M loc :=
  λ st,
    match entries st !! data with
    | None => TypeError
    | Some e =>
      let this := fresh (dom (nodes st)) in
      let h := Entry.heading e in
      Val (this,
           set_nodes (insert this
             (NodeObj.mk data (default [] list) index
                (Heading.title h) (Heading.level h) (Heading.tags h))) st)
    end.

Definition is_table (child : Element.t) : bool :=
  String.eqb (Element.type child) "table".

(** [get tables()] *)
Definition tables (st : Store) (this : loc) : res (list Element.t) :=
  match nodes st !! this with
  | None => TypeError
  | Some nd =>
    match entries st !! NodeObj._data nd with
    | None => TypeError
    | Some e => Val (List.filter is_table (Sect.children (Entry.section e)))
    end
  end.

(** [list[i]._node]: raises on [undefined._node]; an entry without the
    property yields [undefined]. *)
Definition entry_node (st : Store) (o : option loc) : res ref :=
  match o with
  | None => TypeError
  | Some l =>
    match entries st !! l with
    | None => TypeError
    | Some e => Val (ref_of (Entry._node e))
    end
  end.

(** [next()] *)
Definition next (st : Store) (this : loc) : res ref :=
  match nodes st !! this with
  | None => TypeError
  | Some nd =>
    if NodeObj._index nd >=? Z.of_nat (length (NodeObj._list nd)) - 1
    then Val Null
    else entry_node st (array_get (NodeObj._list nd) (NodeObj._index nd + 1))
  end.

(** [prev()] *)
Definition prev (st : Store) (this : loc) : res ref :=
  match nodes st !! this with
  | None => TypeError
  | Some nd =>
    if NodeObj._index nd <? 0
    then Val Null
    else entry_node st (array_get (NodeObj._list nd) (NodeObj._index nd - 1))
  end.

(** The [while] loop of [get children()].  Each iteration uses one unit of
    fuel; [None] means the fuel ran out before the loop ended. *)
Fixpoint children_loop (fuel : nat) (st : Store) (this_level : Z)
    (curr : ref) (children : list loc) : option (res (list loc)) :=
  match curr with
  | Obj c =>
    match nodes st !! c with
    | None => Some TypeError
    | Some nd =>
      if NodeObj.level nd >? this_level then
        match fuel with
        | O => None
        | S fuel' =>
          match next st c with
          | Val curr' => children_loop fuel' st this_level curr' (children ++ [c])
          | TypeError => Some TypeError
          end
        end
      else Some (Val children)
    end
  | _ => Some (Val children)
  end.

(** [get children()] *)
Definition children (fuel : nat) (st : Store) (this : loc) : option (res ListObj.t) :=
  match nodes st !! this with
  | None => Some TypeError
  | Some nd =>
    match next st this with
    | TypeError => Some TypeError
    | Val curr =>
      res_map ListObj.mk <$> children_loop fuel st (NodeObj.level nd) curr []
    end
  end.

(** [toJSON()] *)
Definition toJSON (st : Store) (this : loc) : res loc :=
  match nodes st !! this with
  | None => TypeError
  | Some nd => Val (NodeObj._data nd)
  end.

End OutlineNode.

(** ** class OutlinesArrayList *)

Module OutlinesArrayList.

(** [constructor(collection)]: [collection || []] *)
Definition new (collection : option (list loc)) : ListObj.t :=
  ListObj.mk (default [] collection).

(** [get length()] *)
Definition length (this : ListObj.t) : Z :=
  Z.of_nat (List.length (ListObj._outlines this)).

(** [get tables()] *)
Definition tables (st : Store) (this : ListObj.t) : res (list Element.t) :=
  reduce (λ collection outline,
            match OutlineNode.tables st outline with
            | Val tables =>
              if Z.of_nat (List.length tables) >? 0
              then Val (collection ++ tables)
              else Val collection
            | TypeError => TypeError
            end)
         (ListObj._outlines this) [].

(** [getItem(n)] *)
Definition getItem (this : ListObj.t) (n : Z) : ref :=
  ref_of (array_get (ListObj._outlines this) n).

(** [first()] *)
Definition first (this : ListObj.t) : ref := getItem this 0.

(** [last()] *)
Definition last (this : ListObj.t) : ref := getItem this (length this - 1).

(** [findByLevel(level)] *)
Definition findByLevel (st : Store) (this : ListObj.t) (level : Z) : res (list loc) :=
  filter_cb (λ outline,
               match nodes st !! outline with
               | None => TypeError
               | Some nd => Val (NodeObj.level nd =? level)
               end)
            (ListObj._outlines this).

(** [findByTags(tags)] *)
Definition findByTags (st : Store) (this : ListObj.t) (tags : string) : res (list loc) :=
  filter_cb (λ outline,
               match nodes st !! outline with
               | None => TypeError
               | Some nd =>
                 match arrays st !! NodeObj.tags nd with
                 | None => TypeError
                 | Some a => Val (existsb (λ tag, String.eqb tag tags) a)
                 end
               end)
            (ListObj._outlines this).

(** [findByTitle(title)] *)
Definition findByTitle (st : Store) (this : ListObj.t) (title : string) : res (list loc) :=
  filter_cb (λ outline,
               match nodes st !! outline with
               | None => TypeError
               | Some nd => Val (String.eqb (NodeObj.title nd) title)
               end)
            (ListObj._outlines this).

(** [setOutlines(collection)] *)
Definition setOutlines (collection : list loc) (this : ListObj.t) : ListObj.t :=
  ListObj.mk collection.

End OutlinesArrayList.

(** ** class Orgmode *)

Module Orgmode.

(** [Object.defineProperty(o, '_node', {get: () => node})]: raises when
    [o] is not an object, or when [o] already has the accessor [_node] that
    an earlier call defined (it is not configurable, so it cannot be
    redefined); on an entry without [_node] it defines the accessor. *)
Definition defineProperty_node (o : option loc) (node : loc) : M unit :=
  λ st,
    match o with
    | None => TypeError
    | Some l =>
      match entries st !! l with
      | None => TypeError
      | Some e =>
        match Entry._node e with
        | Some _ => TypeError
        | None =>
          Val (tt, set_entries (insert l
                     (Entry.mk (Entry.heading e) (Entry.section e) (Some node))) st)
        end
      end
    end.

(** The [map((data, index) => ...)] of [_buildOutlines], from position
    [index] on; [outlines] is [this._ast.outlines]. *)
Fixpoint map_outlines (outlines : list loc) (index : nat) (rest : list loc) : M (list loc) :=
  match rest with
  | [] => ret []
  | data :: rest' =>
    let* node := OutlineNode.new data (Z.of_nat index) (Some outlines) in
    let* _ := defineProperty_node (array_get outlines (Z.of_nat index)) node in
    let* nodes := map_outlines outlines (S index) rest' in
    ret (node :: nodes)
  end.

(** [_buildOutlines()] *)
Definition _buildOutlines (ast : Ast.t) : M (list loc) :=
  map_outlines (Ast.outlines ast) 0 (Ast.outlines ast).

(** [constructor(pathname)], from the point where the parser has returned
    the AST of the file (reading and parsing are outside the model):
    [super([])], then [setOutlines(this._buildOutlines())]. *)
Definition new (ast : Ast.t) : M DocObj.t :=
  let this := OutlinesArrayList.new (Some []) in
  let* outlines := _buildOutlines ast in
  ret (DocObj.mk (ListObj._outlines (OutlinesArrayList.setOutlines outlines this)) ast).

(** [get overview()].  The result is given by the own properties of the
    accumulator object; [toLowerCase] is the string method of the language. *)
Definition overview (toLowerCase : string → string) (this : DocObj.t) : gmap string string :=
  fold_left (λ map item, object_set map (toLowerCase (Opt.name item)) (Opt.value item))
            (Ast.options (DocObj._ast this)) ∅.

(** [findBlockByName(name)] *)
Definition findBlockByName (this : DocObj.t) (name : string) : list Block.t :=
  List.filter (λ block, String.eqb (Block.name block) name)
              (Ast.blocks (DocObj._ast this)).

End Orgmode.

(** ** ASTs as the parser delivers them, and built documents *)

(** An entry that is allocated and does not yet carry [_node]. *)
Definition undecorated (st : Store) (data : loc) : Prop :=
  match entries st !! data with
  | Some e => Entry._node e = None
  | None => False
  end.

Global Instance undecorated_dec st data : Decision (undecorated st data).
Proof. unfold undecorated. destruct (entries st !! data); apply _. Defined.

(** Modelled from the spec: the contract of the parser (absent from the
    sources) on [outlines]: one fresh object per heading, in source order,
    none of them wrapped yet. *)
Definition parser_ast (st : Store) (ast : Ast.t) : Prop :=
  NoDup (Ast.outlines ast) ∧ Forall (undecorated st) (Ast.outlines ast).

Global Instance parser_ast_dec st ast : Decision (parser_ast st ast).
Proof. unfold parser_ast. apply _. Defined.

(** The wrapper that [_buildOutlines] makes for entry [data] (whose content
    is [e]) at position [i] of [outlines]. *)
Definition wrapper (outlines : list loc) (i : nat) (data : loc) (e : Entry.t) : NodeObj.t :=
  NodeObj.mk data outlines (Z.of_nat i)
    (Heading.title (Entry.heading e))
    (Heading.level (Entry.heading e))
    (Heading.tags (Entry.heading e)).

(** What holds of the store once [ns] has been built from [ast]. *)
Record built (st : Store) (ast : Ast.t) (ns : list loc) : Prop := Built {
  built_length : length ns = length (Ast.outlines ast);
  built_at : ∀ i data, Ast.outlines ast !! i = Some data →
    ∃ n e, ns !! i = Some n ∧
           entries st !! data = Some e ∧
           Entry._node e = Some n ∧
           nodes st !! n = Some (wrapper (Ast.outlines ast) i data e)
}.

(** The level a node reference carries, if it names a node. *)
Definition level_of (st : Store) (n : loc) : option Z :=
  NodeObj.level <$> nodes st !! n.

(** The levels of the headings of an AST, in source order. *)
Definition heading_levels (st : Store) (ast : Ast.t) : list (option Z) :=
  map (λ data, Heading.level ∘ Entry.heading <$> entries st !! data) (Ast.outlines ast).

(** The children of a node as the outline model describes them: the
    successors, in order, up to and excluding the first one whose level is
    not above [lv]. *)
Fixpoint descendants (st : Store) (lv : Z) (succ : list loc) : list loc :=
  match succ with
  | [] => []
  | c :: succ' =>
    match level_of st c with
    | Some z => if z >? lv then c :: descendants st lv succ' else []
    | None => []
    end
  end.

(** ** Collections and wrappers as the outline model describes them *)

(** A node reference whose node and whose entry are in the store. *)
Definition wrapped (st : Store) (n : loc) : Prop :=
  ∃ nd e, nodes st !! n = Some nd ∧ entries st !! NodeObj._data nd = Some e.

(** A member's own tables as the outline model describes them: the children
    of its section whose variant tag is [table], in document order. *)
Definition section_tables (st : Store) (n : loc) : list Element.t :=
  match nodes st !! n with
  | Some nd =>
    match entries st !! NodeObj._data nd with
    | Some e => filter (λ child, Element.type child = "table")
                       (Sect.children (Entry.section e))
    | None => []
    end
  | None => []
  end.

(** The strings of the array that [n.tags] names. *)
Definition node_tags (st : Store) (n : loc) : option (list string) :=
  nodes st !! n ≫= λ nd, arrays st !! NodeObj.tags nd.

(** ** A sample document *)



Definition demo_entry : Entry.t :=
  Entry.mk (Heading.mk "Intro" 1 10%positive)
           (Sect.mk [Element.mk "table" "t1";
                     Element.mk "paragraph" "p";
                     Element.mk "table" "t2"]) None.

(** Two headings at levels 1 and 3; the first section holds two tables
    around a paragraph; two options whose names differ only in case. *)
Definition demo_st : Store :=
  mkStore
    {[ 10%positive := ["todo"]; 11%positive := [] ]}
    {[ 1%positive := demo_entry;
       2%positive :=
         Entry.mk (Heading.mk "Details" 3 11%positive) (Sect.mk []) None ]}
    ∅.

Definition demo_ast : Ast.t :=
  Ast.mk [1%positive; 2%positive]
         [Opt.mk "Title" "A"; Opt.mk "TITLE" "B"]
         [].

Definition demo_doc : DocObj.t := DocObj.mk [1%positive; 2%positive] demo_ast.

(** The wrapper of the first sample heading. *)
Definition demo_node : NodeObj.t :=
  NodeObj.mk 1%positive [1%positive; 2%positive] 0 "Intro" 1 10%positive.

(** The store after wrapping only the first sample heading. *)
Definition demo_one : Store :=
  match OutlineNode.new 1%positive 0 (Some [1%positive; 2%positive]) demo_st with
  | Val (_, st') => st'
  | TypeError => demo_st
  end.

(** The store after [new Orgmode] on the sample. *)
Definition demo_built : Store :=
  match Orgmode.new demo_ast demo_st with
  | Val (_, st') => st'
  | TypeError => demo_st
  end.

(** The title a node reference carries, if it names a node. *)
Definition title_of (st : Store) (n : loc) : option string :=
  NodeObj.title <$> nodes st !! n.

(** The array that [n.tags] names holds [tag]. *)
Definition has_tag (st : Store) (tag : string) (n : loc) : Prop :=
  match node_tags st n with
  | Some a => tag ∈ a
  | None => False
  end.

Global Instance has_tag_dec st tag n : Decision (has_tag st tag n).
Proof. unfold has_tag. destruct (node_tags st n); apply _. Defined.

(** The children tagged [table] of the section of the entry [data]. *)
Definition entry_tables (st : Store) (data : loc) : list Element.t :=
  match entries st !! data with
  | Some e => filter (λ child, Element.type child = "table")
                     (Sect.children (Entry.section e))
  | None => []
  end.

(** The wrapper of the second sample heading. *)
Definition demo_node2 : NodeObj.t :=
  NodeObj.mk 2%positive [1%positive; 2%positive] 1 "Details" 3 11%positive.

(** A second sample: six headings at levels 1, 2, 3, 2, 1, 2, without
    tags, tables or options. *)
Definition nest_entry (level : Z) : Entry.t :=
  Entry.mk (Heading.mk "h" level 10%positive) (Sect.mk []) None.

Definition nest_st : Store :=
  mkStore
    {[ 10%positive := [] ]}
    {[ 1%positive := nest_entry 1; 2%positive := nest_entry 2;
       3%positive := nest_entry 3; 4%positive := nest_entry 2;
       5%positive := nest_entry 1; 6%positive := nest_entry 2 ]}
    ∅.

Definition nest_ast : Ast.t :=
  Ast.mk [1%positive; 2%positive; 3%positive; 4%positive; 5%positive; 6%positive]
         [] [].

Definition nest_doc : DocObj.t :=
  DocObj.mk [1%positive; 2%positive; 3%positive; 4%positive; 5%positive; 6%positive]
            nest_ast.

(** The store after [new Orgmode] on the second sample. *)
Definition nest_built : Store :=
  match Orgmode.new nest_ast nest_st with
  | Val (_, st') => st'
  | TypeError => nest_st
  end.

(** * Facts about the embedding *)

(** ** Basic facts *)

Lemma array_get_nat {A : Type} (a : list A) (i : nat) :
  array_get a (Z.of_nat i) = a !! i.
Proof.
  unfold array_get. destruct (decide (0 ≤ Z.of_nat i)) as [_|H]; [|lia].
  by rewrite Nat2Z.id.
Qed.

Lemma bind_val {A B : Type} (m : M A) (k : A → M B) st a st' :
  m st = Val (a, st') → bind m k st = k a st'.
Proof. intros H. unfold bind. by rewrite H. Qed.

Lemma new_val data index list st e :
  entries st !! data = Some e →
  OutlineNode.new data index list st =
    Val (fresh (dom (nodes st)),
         set_nodes (insert (fresh (dom (nodes st)))
           (NodeObj.mk data (default [] list) index
              (Heading.title (Entry.heading e))
              (Heading.level (Entry.heading e))
              (Heading.tags (Entry.heading e)))) st).
Proof. intros H. unfold OutlineNode.new. by rewrite H. Qed.

Lemma fresh_node_None st : nodes st !! fresh (dom (nodes st)) = None.
Proof. apply not_elem_of_dom. apply is_fresh. Qed.

Lemma defineProperty_node_val l node st e :
  entries st !! l = Some e → Entry._node e = None →
  Orgmode.defineProperty_node (Some l) node st =
    Val (tt, set_entries (insert l
               (Entry.mk (Entry.heading e) (Entry.section e) (Some node))) st).
Proof. intros H1 H2. unfold Orgmode.defineProperty_node. by rewrite H1, H2. Qed.

(** The map of [_buildOutlines] from position [index] on: it returns, the
    tag arrays are untouched, entries outside [rest] and nodes already
    allocated are untouched, and each entry of [rest] gets its wrapper. *)
Lemma map_outlines_spec outlines rest : ∀ index st,
  (∀ k data, rest !! k = Some data → outlines !! (index + k)%nat = Some data) →
  NoDup rest →
  Forall (undecorated st) rest →
  ∃ ns st',
    Orgmode.map_outlines outlines index rest st = Val (ns, st') ∧
    arrays st' = arrays st ∧
    length ns = length rest ∧
    (∀ l, l ∉ rest → entries st' !! l = entries st !! l) ∧
    (∀ n nd, nodes st !! n = Some nd → nodes st' !! n = Some nd) ∧
    (∀ k data, rest !! k = Some data →
       ∃ n e, ns !! k = Some n ∧
              entries st !! data = Some e ∧
              entries st' !! data =
                Some (Entry.mk (Entry.heading e) (Entry.section e) (Some n)) ∧
              nodes st' !! n = Some (wrapper outlines (index + k) data e)).
Proof.
  induction rest as [|data rest IH]; intros index st Hpos Hnd Hun.
  - exists [], st. simpl. repeat split; auto.
    intros k d Hk. by rewrite lookup_nil in Hk.
  - apply NoDup_cons in Hnd as [Hnotin Hnd].
    apply Forall_cons in Hun as [Hd Hun].
    unfold undecorated in Hd.
    destruct (entries st !! data) as [e|] eqn:He; [|done].
    set (n := fresh (dom (nodes st))).
    set (st1 := set_nodes (insert n (wrapper outlines index data e)) st).
    set (st2 := set_entries (insert data
                  (Entry.mk (Entry.heading e) (Entry.section e) (Some n))) st1).
    assert (Hat : outlines !! index = Some data).
    { specialize (Hpos 0%nat data eq_refl). by rewrite Nat.add_0_r in Hpos. }
    destruct (IH (S index) st2) as (ns & st' & Hrun & Harr & Hlen & Hent & Hnod & Hwrap).
    + intros k d Hk. specialize (Hpos (S k) d Hk).
      by replace (S index + k)%nat with (index + S k)%nat by lia.
    + done.
    + apply Forall_forall. intros d Hin.
      rewrite Forall_forall in Hun. specialize (Hun d Hin).
      unfold undecorated in *. simpl.
      rewrite lookup_insert_ne; [done|]. intros ->. done.
    + exists (n :: ns), st'. split; [|split; [|split; [|split; [|split]]]].
      * simpl. erewrite bind_val; [|by apply new_val].
        simpl. fold n. rewrite array_get_nat, Hat.
        erewrite bind_val; [|by apply defineProperty_node_val].
        fold (wrapper outlines index data e). fold st1. fold st2.
        erewrite bind_val; [|exact Hrun]. done.
      * by rewrite Harr.
      * simpl. by rewrite Hlen.
      * intros l Hl. apply not_elem_of_cons in Hl as [Hne Hl].
        rewrite (Hent l Hl). simpl. by rewrite lookup_insert_ne.
      * intros m nd Hm. apply Hnod. simpl.
        rewrite lookup_insert_ne; [done|]. intros <-.
        subst n. by rewrite fresh_node_None in Hm.
      * intros [|k] d Hk; simpl in Hk.
        -- injection Hk as <-. exists n, e. split; [done|]. split; [done|]. split.
           ++ rewrite (Hent data Hnotin). simpl. by rewrite lookup_insert_eq.
           ++ rewrite Nat.add_0_r. apply Hnod. simpl. by rewrite lookup_insert_eq.
        -- destruct (Hwrap k d Hk) as (m & e' & Hm & He' & He'' & Hnm).
           exists m, e'. split; [done|]. split; [|split].
           ++ simpl in He'. rewrite lookup_insert_ne in He'; [done|].
              intros ->. apply Hnotin. by eapply list_elem_of_lookup_2.
           ++ done.
           ++ by replace (index + S k)%nat with (S index + k)%nat by lia.
Qed.

(** Construction from a parser AST returns, and the result is [built]. *)
Lemma new_built st ast :
  parser_ast st ast →
  ∃ doc st',
    Orgmode.new ast st = Val (doc, st') ∧
    DocObj._ast doc = ast ∧
    built st' ast (DocObj._outlines doc) ∧
    arrays st' = arrays st ∧
    heading_levels st' ast = heading_levels st ast.
Proof.
  intros [Hnd Hun].
  destruct (map_outlines_spec (Ast.outlines ast) (Ast.outlines ast) 0%nat st)
    as (ns & st' & Hrun & Harr & Hlen & _ & _ & Hwrap); [by intros k d Hk|done|done|].
  exists (DocObj.mk ns ast), st'.
  split; [|split; [done|split; [|split; [done|]]]].
  - unfold Orgmode.new, Orgmode._buildOutlines.
    erewrite bind_val; [|exact Hrun]. done.
  - split; [done|]. intros i data Hi.
    destruct (Hwrap i data Hi) as (n & e & Hn & _ & He & Hnode).
    exists n, (Entry.mk (Entry.heading e) (Entry.section e) (Some n)).
    by repeat split.
  - unfold heading_levels. apply list_eq. intros i.
    rewrite !list_lookup_fmap.
    destruct (Ast.outlines ast !! i) as [data|] eqn:Hi; [|done]. simpl.
    destruct (Hwrap i data Hi) as (n & e & _ & He & He' & _).
    by rewrite He, He'.
Qed.

Lemma new_built_inv st ast doc st' :
  parser_ast st ast → Orgmode.new ast st = Val (doc, st') →
  DocObj._ast doc = ast ∧ built st' ast (DocObj._outlines doc) ∧
  arrays st' = arrays st ∧ heading_levels st' ast = heading_levels st ast.
Proof.
  intros Hp Hnew. destruct (new_built st ast Hp) as (doc' & st'' & Hnew' & H).
  rewrite Hnew in Hnew'. by simplify_eq.
Qed.

(** ** Navigation in a built document *)

Section Navigation.
Context (st : Store) (ast : Ast.t) (ns : list loc).
Hypothesis Hbuilt : built st ast ns.

Lemma built_lookup i n :
  ns !! i = Some n →
  ∃ data e, Ast.outlines ast !! i = Some data ∧
            entries st !! data = Some e ∧
            Entry._node e = Some n ∧
            nodes st !! n = Some (wrapper (Ast.outlines ast) i data e).
Proof.
  intros Hn. destruct Hbuilt as [Hlen Hat].
  destruct (Ast.outlines ast !! i) as [data|] eqn:Hi.
  - destruct (Hat i data Hi) as (n' & e & Hn' & He & Hnode & Hw).
    rewrite Hn in Hn'. simplify_eq. by exists data, e.
  - apply lookup_ge_None in Hi. apply lookup_lt_Some in Hn. lia.
Qed.

Lemma built_index i n nd :
  ns !! i = Some n → nodes st !! n = Some nd →
  NodeObj._index nd = Z.of_nat i ∧ NodeObj._list nd = Ast.outlines ast.
Proof.
  intros Hn Hnd. destruct (built_lookup i n Hn) as (data & e & _ & _ & _ & Hw).
  rewrite Hnd in Hw. by simplify_eq.
Qed.

Lemma built_NoDup : NoDup ns.
Proof.
  apply NoDup_alt. intros i j n Hi Hj.
  destruct (built_lookup i n Hi) as (d1 & e1 & _ & _ & _ & Hw1).
  destruct (built_index j n _ Hj Hw1) as [Hidx _]. simpl in Hidx. lia.
Qed.

Lemma entry_node_built i n :
  ns !! i = Some n →
  OutlineNode.entry_node st (Ast.outlines ast !! i) = Val (Obj n).
Proof.
  intros Hn. destruct (built_lookup i n Hn) as (data & e & Hd & He & Hnode & _).
  unfold OutlineNode.entry_node. by rewrite Hd, He, Hnode.
Qed.

(** [next()] of the node at position [i] is the node at position [i + 1],
    or [null] when there is none. *)
Lemma next_built i n :
  ns !! i = Some n →
  OutlineNode.next st n =
    Val (match ns !! S i with Some n' => Obj n' | None => Null end).
Proof.
  intros Hn. pose proof (built_length _ _ _ Hbuilt) as Hlen.
  destruct (built_lookup i n Hn) as (data & e & _ & _ & _ & Hw).
  unfold OutlineNode.next. rewrite Hw. simpl.
  destruct (ns !! S i) as [n'|] eqn:Hn'.
  - apply lookup_lt_Some in Hn' as Hlt.
    destruct (Z.geb_spec (Z.of_nat i) (Z.of_nat (length (Ast.outlines ast)) - 1)); [lia|].
    replace (Z.of_nat i + 1) with (Z.of_nat (S i)) by lia.
    rewrite array_get_nat. by apply entry_node_built.
  - apply lookup_ge_None in Hn'.
    destruct (Z.geb_spec (Z.of_nat i) (Z.of_nat (length (Ast.outlines ast)) - 1)); [done|lia].
Qed.

(** [prev()] of the node at position [i + 1] is the node at position [i]. *)
Lemma prev_built_succ i n m :
  ns !! S i = Some n → ns !! i = Some m →
  OutlineNode.prev st n = Val (Obj m).
Proof.
  intros Hn Hm.
  destruct (built_lookup (S i) n Hn) as (data & e & _ & _ & _ & Hw).
  unfold OutlineNode.prev. rewrite Hw. simpl.
  destruct (Z.ltb_spec (Z.of_nat (S i)) 0); [lia|].
  replace (Z.of_nat (S i) - 1) with (Z.of_nat i) by lia.
  rewrite array_get_nat. by apply entry_node_built.
Qed.

(** [prev()] of the node at position 0 reads [_list[-1]._node]. *)
Lemma prev_built_first n :
  ns !! 0%nat = Some n → OutlineNode.prev st n = TypeError.
Proof.
  intros Hn.
  destruct (built_lookup 0%nat n Hn) as (data & e & _ & _ & _ & Hw).
  unfold OutlineNode.prev. by rewrite Hw.
Qed.

(** The loop of [children] started at position [i], with enough fuel. *)
Lemma children_loop_built lv : ∀ fuel i acc,
  (length ns - i ≤ fuel)%nat →
  OutlineNode.children_loop fuel st lv
    (match ns !! i with Some c => Obj c | None => Null end) acc =
  Some (Val (acc ++ descendants st lv (drop i ns))).
Proof.
  induction fuel as [|fuel IH]; intros i acc Hfuel.
  - rewrite (proj2 (lookup_ge_None ns i)) by lia.
    rewrite drop_ge by lia. simpl. by rewrite app_nil_r.
  - destruct (ns !! i) as [c|] eqn:Hc.
    + destruct (built_lookup i c Hc) as (data & e & _ & _ & _ & Hw).
      rewrite (drop_S _ _ _ Hc). simpl. unfold level_of. rewrite Hw. simpl.
      destruct (Heading.level (Entry.heading e) >? lv) eqn:Hgt.
      * rewrite (next_built i c Hc), IH by lia.
        by rewrite <- app_assoc.
      * by rewrite app_nil_r.
    + apply lookup_ge_None in Hc. rewrite drop_ge by lia.
      simpl. by rewrite app_nil_r.
Qed.

(** [children] of the node at position [i]: it returns for every fuel that
    covers the rest of the document. *)
Lemma children_built i n nd fuel :
  ns !! i = Some n → nodes st !! n = Some nd →
  (length ns - S i ≤ fuel)%nat →
  OutlineNode.children fuel st n =
    Some (Val (ListObj.mk (descendants st (NodeObj.level nd) (drop (S i) ns)))).
Proof.
  intros Hn Hnd Hfuel. unfold OutlineNode.children.
  rewrite Hnd, (next_built i n Hn), children_loop_built by done. done.
Qed.

End Navigation.

Lemma built_level_of st ast ns i n :
  built st ast ns → ns !! i = Some n →
  heading_levels st ast !! i = Some (level_of st n).
Proof.
  intros Hb Hn. destruct (built_lookup st ast ns Hb i n Hn) as (data & e & Hd & He & _ & Hw).
  unfold heading_levels, level_of. rewrite list_lookup_fmap, Hd, Hw. simpl.
  by rewrite He.
Qed.

(** [descendants] is a prefix of the successors: every member has a level
    above [lv], and the successor right after the prefix, if any, has not. *)
Lemma descendants_take st lv (succ : list loc) :
  ∃ k : nat,
    (k ≤ length succ)%nat ∧
    descendants st lv succ = take k succ ∧
    (∀ (j : nat) c, (j < k)%nat → succ !! j = Some c →
       ∃ z, level_of st c = Some z ∧ z > lv) ∧
    (∀ c z, succ !! k = Some c → level_of st c = Some z → z ≤ lv).
Proof.
  induction succ as [|c succ (k & Hk & Hd & Hin & Hout)].
  - exists 0%nat. repeat split; [done| |]; intros; by simplify_list_eq.
  - simpl. destruct (level_of st c) as [z|] eqn:Hz.
    + destruct (Z.gtb_spec z lv) as [Hgt|Hle].
      * exists (S k). split; [simpl; lia|]. split; [by rewrite Hd|]. split.
        -- intros [|j] c' Hj Hc'; simpl in Hc'.
           ++ simplify_eq. exists z. split; [done|lia].
           ++ apply (Hin j c'); [lia|done].
        -- intros c' z' Hc'. simpl in Hc'. by apply Hout.
      * exists 0%nat. split; [simpl; lia|]. split; [done|]. split; [intros; lia|].
        intros c' z' Hc' Hz'. simpl in Hc'. simplify_eq. lia.
    + exists 0%nat. split; [simpl; lia|]. split; [done|]. split; [intros; lia|].
      intros c' z' Hc' Hz'. simpl in Hc'. simplify_eq.
Qed.

Lemma getItem_nat (this : ListObj.t) (i : nat) :
  OutlinesArrayList.getItem this (Z.of_nat i) = ref_of (ListObj._outlines this !! i).
Proof. unfold OutlinesArrayList.getItem. by rewrite array_get_nat. Qed.

Lemma getItem_Obj (this : ListObj.t) (i : Z) n :
  OutlinesArrayList.getItem this i = Obj n →
  0 ≤ i ∧ ListObj._outlines this !! Z.to_nat i = Some n.
Proof.
  unfold OutlinesArrayList.getItem, array_get.
  destruct (decide (0 ≤ i)); [|done].
  destruct (ListObj._outlines this !! Z.to_nat i) eqn:H; simpl; [|done].
  intros. by simplify_eq.
Qed.

Lemma last_Obj (this : ListObj.t) n :
  OutlinesArrayList.last this = Obj n →
  ∃ i : nat, ListObj._outlines this !! i = Some n ∧
             S i = length (ListObj._outlines this).
Proof.
  unfold OutlinesArrayList.last, OutlinesArrayList.length.
  intros [H0 Hn]%getItem_Obj.
  exists (Z.to_nat (Z.of_nat (length (ListObj._outlines this)) - 1)).
  split; [done|lia].
Qed.

(** * Properties of the outline model *)

(** ** Navigation: [prev], [next] *)

(** C1 (what the code does at position 0): in every document built from a
    parser AST that has at least one node, [first().prev()] does not yield
    "none": it raises [TypeError], because the guard of [prev] only covers
    negative positions and position 0 goes on to read [_list[-1]._node].
    A node whose position is negative does get [null]. *)
Theorem prev_at_first_raises st ast doc st' n :
  parser_ast st ast →
  Orgmode.new ast st = Val (doc, st') →
  OutlinesArrayList.first (DocObj.super doc) = Obj n →
  OutlineNode.prev st' n = TypeError ∧
  (∀ m nd, nodes st' !! m = Some nd → NodeObj._index nd < 0 →
           OutlineNode.prev st' m = Val Null).
Proof.
  intros Hp Hnew Hfirst.
  destruct (new_built_inv _ _ _ _ Hp Hnew) as (_ & Hb & _).
  apply getItem_Obj in Hfirst as [_ Hn]. simpl in Hn. split.
  - by eapply prev_built_first.
  - intros m nd Hm Hneg. unfold OutlineNode.prev. rewrite Hm.
    by destruct (Z.ltb_spec (NodeObj._index nd) 0); [|lia].
Qed.

(** C3: in a document built from a parser AST, for every node [n] whose
    position is below [length - 1], [n.next()] is the node stored at
    position [n.position + 1], that node's position is [n.position + 1],
    and its [prev()] is the very node [n]; [next()] of the last node is
    [null]. *)
Theorem next_prev_round_trip st ast doc st' :
  parser_ast st ast →
  Orgmode.new ast st = Val (doc, st') →
  (∀ n nd,
     n ∈ DocObj._outlines doc → nodes st' !! n = Some nd →
     NodeObj._index nd < OutlinesArrayList.length (DocObj.super doc) - 1 →
     ∃ n' nd',
       OutlineNode.next st' n = Val (Obj n') ∧
       OutlinesArrayList.getItem (DocObj.super doc) (NodeObj._index nd + 1) = Obj n' ∧
       nodes st' !! n' = Some nd' ∧
       NodeObj._index nd' = NodeObj._index nd + 1 ∧
       OutlineNode.prev st' n' = Val (Obj n)) ∧
  (∀ n, OutlinesArrayList.last (DocObj.super doc) = Obj n →
        OutlineNode.next st' n = Val Null).
Proof.
  intros Hp Hnew.
  destruct (new_built_inv _ _ _ _ Hp Hnew) as (_ & Hb & _).
  split.
  - intros n nd [i Hi]%list_elem_of_lookup_1 Hnd Hlt.
    destruct (built_index _ _ _ Hb i n nd Hi Hnd) as [Hidx _].
    unfold OutlinesArrayList.length in Hlt. simpl in Hlt.
    destruct (DocObj._outlines doc !! S i) as [n'|] eqn:Hn';
      [|apply lookup_ge_None in Hn'; lia].
    destruct (built_lookup _ _ _ Hb (S i) n' Hn') as (data & e & _ & _ & _ & Hw).
    exists n', (wrapper (Ast.outlines ast) (S i) data e).
    split; [|split; [|split; [done|split]]].
    + by rewrite (next_built _ _ _ Hb i n Hi), Hn'.
    + rewrite Hidx. replace (Z.of_nat i + 1) with (Z.of_nat (S i)) by lia.
      rewrite getItem_nat. simpl. by rewrite Hn'.
    + simpl. lia.
    + by eapply prev_built_succ.
  - intros n (i & Hi & Hlen)%last_Obj. simpl in *.
    rewrite (next_built _ _ _ Hb i n Hi).
    by rewrite (proj2 (lookup_ge_None _ (S i))) by lia.
Qed.

(** ** Construction *)

(** C4: for every AST that meets the parser's contract, construction
    returns a document whose length is the number of AST outline entries,
    whose nodes are pairwise distinct, and whose item [i], for every [i] in
    [0, length), is a node with position [i] that wraps the [i]-th entry and
    is the [_node] of that entry. *)
Theorem build_wraps_every_entry st ast :
  parser_ast st ast →
  ∃ doc st',
    Orgmode.new ast st = Val (doc, st') ∧
    OutlinesArrayList.length (DocObj.super doc) = Z.of_nat (length (Ast.outlines ast)) ∧
    NoDup (DocObj._outlines doc) ∧
    ∀ i : Z, 0 ≤ i < OutlinesArrayList.length (DocObj.super doc) →
      ∃ n nd data e,
        OutlinesArrayList.getItem (DocObj.super doc) i = Obj n ∧
        nodes st' !! n = Some nd ∧
        NodeObj._index nd = i ∧
        array_get (Ast.outlines ast) i = Some data ∧
        NodeObj._data nd = data ∧
        entries st' !! data = Some e ∧
        Entry._node e = Some n.
Proof.
  intros Hp. destruct (new_built st ast Hp) as (doc & st' & Hnew & _ & Hb & _).
  exists doc, st'. split; [done|].
  pose proof (built_length _ _ _ Hb) as Hlen.
  split; [unfold OutlinesArrayList.length; simpl; by rewrite Hlen|].
  split; [by eapply built_NoDup|].
  unfold OutlinesArrayList.length. simpl. intros i [H0 Hi].
  destruct (DocObj._outlines doc !! Z.to_nat i) as [n|] eqn:Hn;
    [|apply lookup_ge_None in Hn; lia].
  destruct (built_lookup _ _ _ Hb _ n Hn) as (data & e & Hd & He & Hnode & Hw).
  exists n, (wrapper (Ast.outlines ast) (Z.to_nat i) data e), data, e.
  assert (Hget : array_get (DocObj._outlines doc) i = Some n).
  { rewrite <- (Z2Nat.id i) by done. by rewrite array_get_nat. }
  assert (Hgeta : array_get (Ast.outlines ast) i = Some data).
  { rewrite <- (Z2Nat.id i) by done. by rewrite array_get_nat. }
  unfold OutlinesArrayList.getItem. simpl. rewrite Hget.
  repeat split; try done. simpl. lia.
Qed.

(** ** Hierarchy: [children] *)

(** C2: in a document built from a parser AST, for every node [n] (at
    index [i]) and every fuel that covers the document, [n.children()]
    returns the collection of exactly the nodes met walking forward from the
    successor of [n] while the level is strictly above [n.level], stopping
    before the first node whose level is not, or at the end.  For headings
    at levels [1,3], [item(0).children()] has length 1; [children()] of the
    last node is empty. *)
Theorem children_walk st ast doc st' :
  parser_ast st ast →
  Orgmode.new ast st = Val (doc, st') →
  (∀ (i : nat) n nd (fuel : nat),
     DocObj._outlines doc !! i = Some n → nodes st' !! n = Some nd →
     (length (DocObj._outlines doc) ≤ fuel)%nat →
     OutlineNode.children fuel st' n =
       Some (Val (ListObj.mk
         (descendants st' (NodeObj.level nd) (drop (S i) (DocObj._outlines doc)))))) ∧
  (heading_levels st ast = [Some 1; Some 3] →
   ∃ n c, OutlinesArrayList.getItem (DocObj.super doc) 0 = Obj n ∧
          (∀ fuel : nat, (2 ≤ fuel)%nat → OutlineNode.children fuel st' n = Some (Val c)) ∧
          OutlinesArrayList.length c = 1) ∧
  (∀ n (fuel : nat),
     OutlinesArrayList.last (DocObj.super doc) = Obj n →
     OutlineNode.children fuel st' n = Some (Val (ListObj.mk []))).
Proof.
  intros Hp Hnew.
  destruct (new_built_inv _ _ _ _ Hp Hnew) as (_ & Hb & _ & Hlv).
  split; [|split].
  - intros i n nd fuel Hi Hnd Hfuel. eapply children_built; [done..|lia].
  - intros Hlevels. rewrite <- Hlv in Hlevels.
    pose proof (built_length _ _ _ Hb) as Hlen.
    assert (Hlen2 : length (DocObj._outlines doc) = 2%nat).
    { rewrite Hlen. unfold heading_levels in Hlevels.
      apply (f_equal length) in Hlevels. by rewrite length_map in Hlevels. }
    destruct (DocObj._outlines doc) as [|n0 [|n1 [|]]] eqn:Hns; try done.
    pose proof (built_level_of _ _ _ 0%nat n0 Hb eq_refl) as H0.
    pose proof (built_level_of _ _ _ 1%nat n1 Hb eq_refl) as H1.
    rewrite Hlevels in H0, H1. simpl in H0, H1. simplify_eq.
    destruct (nodes st' !! n0) as [nd0|] eqn:Hnd0;
      [|by unfold level_of in H0; rewrite Hnd0 in H0].
    assert (Hl0 : NodeObj.level nd0 = 1).
    { unfold level_of in H0. rewrite Hnd0 in H0. simpl in H0. by simplify_eq. }
    exists n0, (ListObj.mk [n1]). split; [|split; [|done]].
    + unfold OutlinesArrayList.getItem. simpl. by rewrite Hns.
    + intros fuel Hfuel.
      rewrite (children_built _ _ _ Hb 0%nat n0 nd0 fuel eq_refl Hnd0) by (simpl; lia).
      simpl. by rewrite <- H1, Hl0.
  - intros n fuel (i & Hi & Hlen)%last_Obj. simpl in *.
    destruct (built_lookup _ _ _ Hb i n Hi) as (data & e & _ & _ & _ & Hw).
    rewrite (children_built _ _ _ Hb i n _ fuel Hi Hw) by lia.
    by rewrite drop_ge by lia.
Qed.

(** C10: in a document built from a parser AST, the members of
    [n.children()] are the nodes at the consecutive positions
    [n.position + 1, ..., n.position + k] for some [k >= 0]: each of them
    has a level above [n.level], none in between is left out, and the node
    at position [n.position + k + 1], when there is one, has a level that
    is not above [n.level]. *)
Theorem children_contiguous_run st ast doc st' (i : nat) n nd :
  parser_ast st ast →
  Orgmode.new ast st = Val (doc, st') →
  DocObj._outlines doc !! i = Some n →
  nodes st' !! n = Some nd →
  ∃ k : nat,
    (S i + k ≤ length (DocObj._outlines doc))%nat ∧
    (∀ fuel : nat, (length (DocObj._outlines doc) ≤ fuel)%nat →
       OutlineNode.children fuel st' n =
         Some (Val (ListObj.mk (take k (drop (S i) (DocObj._outlines doc)))))) ∧
    (∀ j : nat, (j < k)%nat →
       ∃ c cd, take k (drop (S i) (DocObj._outlines doc)) !! j = Some c ∧
               DocObj._outlines doc !! (S i + j)%nat = Some c ∧
               nodes st' !! c = Some cd ∧
               NodeObj._index cd = NodeObj._index nd + 1 + Z.of_nat j ∧
               NodeObj.level cd > NodeObj.level nd) ∧
    (∀ c cd, DocObj._outlines doc !! (S i + k)%nat = Some c →
             nodes st' !! c = Some cd →
             NodeObj.level cd ≤ NodeObj.level nd).
Proof.
  intros Hp Hnew Hi Hnd.
  destruct (new_built_inv _ _ _ _ Hp Hnew) as (_ & Hb & _).
  destruct (descendants_take st' (NodeObj.level nd) (drop (S i) (DocObj._outlines doc)))
    as (k & Hk & Hd & Hin & Hout).
  rewrite length_drop in Hk.
  apply lookup_lt_Some in Hi as Hlt.
  exists k. split; [lia|]. split; [|split].
  - intros fuel Hfuel. rewrite <- Hd. eapply children_built; [done..|lia].
  - intros j Hj.
    destruct (DocObj._outlines doc !! (S i + j)%nat) as [c|] eqn:Hc;
      [|apply lookup_ge_None in Hc; lia].
    destruct (built_lookup _ _ _ Hb _ c Hc) as (data & e & _ & _ & _ & Hw).
    destruct (built_index _ _ _ Hb i n nd Hi Hnd) as [Hidx _].
    exists c, (wrapper (Ast.outlines ast) (S i + j) data e).
    split; [|split; [done|split; [done|split]]].
    + rewrite lookup_take_lt by done. by rewrite lookup_drop.
    + rewrite Hidx. simpl. lia.
    + destruct (Hin j c Hj) as (z & Hz & Hgt); [by rewrite lookup_drop|].
      unfold level_of in Hz. rewrite Hw in Hz. simpl in *. by simplify_eq.
  - intros c cd Hc Hcd. apply (Hout c); [by rewrite lookup_drop|].
    unfold level_of. by rewrite Hcd.
Qed.

(** ** Document options: [overview] *)

Lemma overview_fold_lookup (toLowerCase : string → string) (opts : list Opt.t) :
  ∀ (acc : gmap string string) (key : string),
    key ≠ "__proto__" →
    fold_left (λ map item, object_set map (toLowerCase (Opt.name item)) (Opt.value item))
              opts acc !! key =
    match last (filter (λ item, toLowerCase (Opt.name item) = key) opts) with
    | Some item => Some (Opt.value item)
    | None => acc !! key
    end.
Proof.
  induction opts as [|item opts IH]; intros acc key Hkey; [done|].
  simpl. rewrite IH, filter_cons by done. unfold object_set.
  destruct (decide (toLowerCase (Opt.name item) = key)) as [Heq|Hne].
  - rewrite last_cons.
    destruct (last (filter _ opts)); [done|].
    rewrite decide_False by congruence.
    by rewrite Heq, lookup_insert_eq.
  - destruct (last (filter _ opts)); [done|].
    destruct (decide (toLowerCase (Opt.name item) = "__proto__")); [done|].
    by rewrite lookup_insert_ne.
Qed.

Lemma overview_fold_proto (toLowerCase : string → string) (opts : list Opt.t) :
  ∀ acc : gmap string string,
    fold_left (λ map item, object_set map (toLowerCase (Opt.name item)) (Opt.value item))
              opts acc !! "__proto__" = acc !! "__proto__".
Proof.
  induction opts as [|item opts IH]; intros acc; [done|].
  simpl. rewrite IH. unfold object_set.
  destruct (decide (toLowerCase (Opt.name item) = "__proto__")) as [Heq|Hne]; [done|].
  by rewrite lookup_insert_ne.
Qed.



(** ** Collections: [tables], [findByLevel], [first], [last] *)

Lemma filter_is_table (l : list Element.t) :
  List.filter OutlineNode.is_table l = filter (λ child, Element.type child = "table") l.
Proof.
  induction l as [|x l IH]; [done|].
  simpl. rewrite filter_cons, IH. unfold OutlineNode.is_table.
  destruct (String.eqb_spec (Element.type x) "table") as [Heq|Hne].
  - by rewrite decide_True.
  - by rewrite decide_False.
Qed.

Lemma node_tables_wrapped st n :
  wrapped st n → OutlineNode.tables st n = Val (section_tables st n).
Proof.
  intros (nd & e & Hnd & He). unfold OutlineNode.tables, section_tables.
  by rewrite Hnd, He, filter_is_table.
Qed.

Lemma tables_reduce st (l : list loc) : ∀ acc,
  Forall (wrapped st) l →
  reduce (λ collection outline,
            match OutlineNode.tables st outline with
            | Val tables =>
              if Z.of_nat (List.length tables) >? 0
              then Val (collection ++ tables)
              else Val collection
            | TypeError => TypeError
            end) l acc =
  Val (acc ++ concat (map (section_tables st) l)).
Proof.
  induction l as [|n l IH]; intros acc Hw.
  - simpl. by rewrite app_nil_r.
  - apply Forall_cons in Hw as [Hn Hw]. simpl.
    rewrite (node_tables_wrapped st n Hn).
    destruct (section_tables st n) as [|t ts] eqn:Hts.
    + simpl. by rewrite IH.
    + destruct (Z.gtb_spec (Z.of_nat (length (t :: ts))) 0) as [_|Hle];
        [|simpl in Hle; lia].
      rewrite IH by done. by rewrite <- app_assoc.
Qed.

(** C6: for every collection (of wrapped nodes), [tables] returns exactly
    the concatenation, in member order, of the members' own tables, where a
    member's own tables are the children of its section tagged [table], in
    document order; every element of the result is a table, so members
    without tables leave nothing behind. *)
Theorem tables_is_concatenation st (this : ListObj.t) :
  Forall (wrapped st) (ListObj._outlines this) →
  OutlinesArrayList.tables st this =
    Val (concat (map (section_tables st) (ListObj._outlines this))) ∧
  (∀ n, n ∈ ListObj._outlines this →
        OutlineNode.tables st n = Val (section_tables st n)) ∧
  Forall (λ t, Element.type t = "table")
         (concat (map (section_tables st) (ListObj._outlines this))).
Proof.
  intros Hw. split; [|split].
  - unfold OutlinesArrayList.tables. by rewrite tables_reduce.
  - intros n Hn. apply node_tables_wrapped.
    rewrite Forall_forall in Hw. by apply Hw.
  - apply Forall_concat, Forall_fmap, Forall_forall. intros n _. simpl.
    unfold section_tables.
    destruct (nodes st !! n) as [nd|]; [|done].
    destruct (entries st !! NodeObj._data nd) as [e|]; [|done].
    apply Forall_forall. by intros t [Ht _]%list_elem_of_filter.
Qed.

Lemma findByLevel_filter st (level : Z) (l : list loc) :
  Forall (λ n, is_Some (nodes st !! n)) l →
  filter_cb (λ outline,
               match nodes st !! outline with
               | None => TypeError
               | Some nd => Val (NodeObj.level nd =? level)
               end) l =
  Val (filter (λ n, level_of st n = Some level) l).
Proof.
  induction l as [|n l IH]; intros Hs; [done|].
  apply Forall_cons in Hs as [[nd Hnd] Hs]. simpl.
  assert (Hl : level_of st n = Some (NodeObj.level nd)).
  { unfold level_of. by rewrite Hnd. }
  rewrite Hnd, (IH Hs), filter_cons.
  destruct (Z.eqb_spec (NodeObj.level nd) level) as [Heq|Hne].
  - rewrite decide_True; [done|by rewrite Hl, Heq].
  - rewrite decide_False; [done|]. rewrite Hl. intros H. by simplify_eq.
Qed.

(** C7: for every collection (of node references) and every level [L],
    [findByLevel(L)] returns the members whose level is [L] and no others,
    in their original order, and the empty array when no member matches. *)
Theorem findByLevel_exact st (this : ListObj.t) (level : Z) :
  Forall (λ n, is_Some (nodes st !! n)) (ListObj._outlines this) →
  ∃ r,
    OutlinesArrayList.findByLevel st this level = Val r ∧
    r = filter (λ n, level_of st n = Some level) (ListObj._outlines this) ∧
    (∀ n, n ∈ r ↔ n ∈ ListObj._outlines this ∧ level_of st n = Some level) ∧
    r `sublist_of` ListObj._outlines this ∧
    ((∀ n, n ∈ ListObj._outlines this → level_of st n ≠ Some level) → r = []).
Proof.
  intros Hs. eexists. split; [|split; [reflexivity|split; [|split]]].
  - unfold OutlinesArrayList.findByLevel. by apply findByLevel_filter.
  - intros n. rewrite list_elem_of_filter. tauto.
  - apply sublist_filter.
  - intros Hnone.
    destruct (filter _ (ListObj._outlines this)) as [|n r] eqn:Hr; [done|].
    assert (Hn : n ∈ filter (λ n, level_of st n = Some level) (ListObj._outlines this))
      by (rewrite Hr; left).
    apply list_elem_of_filter in Hn as [Hl Hn]. by destruct (Hnone n Hn).
Qed.

(** C8: [first()] and [last()] never raise.  On an empty collection both
    are [undefined] ([last()] reads index -1, which is outside the array);
    on a non-empty collection they are [getItem(0)] and
    [getItem(length - 1)], the first and the last member. *)
Theorem first_last_absent_on_empty (this : ListObj.t) :
  (OutlinesArrayList.length this = 0 →
     OutlinesArrayList.first this = Undefined ∧
     OutlinesArrayList.last this = Undefined ∧
     absent (OutlinesArrayList.first this) = true ∧
     absent (OutlinesArrayList.last this) = true) ∧
  (OutlinesArrayList.length this > 0 →
     OutlinesArrayList.first this = OutlinesArrayList.getItem this 0 ∧
     OutlinesArrayList.last this =
       OutlinesArrayList.getItem this (OutlinesArrayList.length this - 1) ∧
     ∃ a b, head (ListObj._outlines this) = Some a ∧
            last (ListObj._outlines this) = Some b ∧
            OutlinesArrayList.first this = Obj a ∧
            OutlinesArrayList.last this = Obj b).
Proof.
  destruct this as [l].
  unfold OutlinesArrayList.first, OutlinesArrayList.last,
    OutlinesArrayList.length, OutlinesArrayList.getItem. simpl.
  split.
  - intros Hlen. destruct l; [|simpl in Hlen; lia]. done.
  - intros Hlen. split; [done|]. split; [done|].
    destruct l as [|a l]; [simpl in Hlen; lia|].
    destruct (last (a :: l)) as [b|] eqn:Hb;
      [|rewrite last_lookup in Hb; apply lookup_ge_None in Hb; simpl in Hb; lia].
    exists a, b. split; [done|]. split; [done|]. split; [done|].
    rewrite last_lookup in Hb.
    replace (Z.of_nat (length (a :: l)) - 1)
      with (Z.of_nat (Init.Nat.pred (length (a :: l)))) by (simpl; lia).
    by rewrite array_get_nat, Hb.
Qed.

(** ** What a wrapper keeps of its heading *)

(** C9 (amended): the constructor stores the heading's title and level by
    value and the heading's tags as the reference to the heading's own
    array.  Assigning a new title, level or tags array to the source heading
    afterwards changes nothing the node shows; but the node's [tags] is the
    array the heading had at construction, so pushing a string onto that
    array shows through [n.tags] (title and level stay as they were). *)
Theorem node_fields_after_heading_writes st data index list n st1 e :
  entries st !! data = Some e →
  OutlineNode.new data index list st = Val (n, st1) →
  ∃ nd,
    nodes st1 !! n = Some nd ∧
    NodeObj.title nd = Heading.title (Entry.heading e) ∧
    NodeObj.level nd = Heading.level (Entry.heading e) ∧
    NodeObj.tags nd = Heading.tags (Entry.heading e) ∧
    (∀ s, nodes (set_heading_title data s st1) !! n = Some nd ∧
          node_tags (set_heading_title data s st1) n = node_tags st1 n) ∧
    (∀ z, nodes (set_heading_level data z st1) !! n = Some nd ∧
          node_tags (set_heading_level data z st1) n = node_tags st1 n) ∧
    (∀ a, nodes (set_heading_tags data a st1) !! n = Some nd ∧
          node_tags (set_heading_tags data a st1) n = node_tags st1 n) ∧
    (∀ x, nodes (heading_tags_push data x st1) !! n = Some nd ∧
          node_tags (heading_tags_push data x st1) n =
            (λ a, a ++ [x]) <$> node_tags st1 n).
Proof.
  intros He Hnew. rewrite (new_val _ _ _ _ _ He) in Hnew. simplify_eq.
  eexists. split; [simpl; apply lookup_insert_eq|].
  repeat (split; [done|]).
  split; [|split; [|split]];
    try (intros; split; [simpl; apply lookup_insert_eq|reflexivity]).
  intros x. unfold heading_tags_push, set_nodes. cbn [entries]. rewrite He.
  split; [simpl; apply lookup_insert_eq|].
  unfold node_tags. simpl. rewrite lookup_insert_eq. simpl.
  by rewrite lookup_alter_eq.
Qed.

(** * The sample document, run *)

Lemma demo_parser_ast : parser_ast demo_st demo_ast.
Proof. apply (bool_decide_unpack _). vm_compute. exact I. Defined.

Lemma demo_new : Orgmode.new demo_ast demo_st = Val (demo_doc, demo_built).
Proof. vm_compute. reflexivity. Defined.

Lemma prev_at_first_raises_witness :
  parser_ast demo_st demo_ast ∧
  Orgmode.new demo_ast demo_st = Val (demo_doc, demo_built) ∧
  OutlinesArrayList.first (DocObj.super demo_doc) = Obj 1%positive ∧
  OutlineNode.prev demo_built 1%positive = TypeError.
Proof.
  split; [exact demo_parser_ast|]. split; [exact demo_new|]. split; [reflexivity|].
  apply (prev_at_first_raises demo_st demo_ast demo_doc demo_built 1%positive
           demo_parser_ast demo_new eq_refl).
Defined.

Lemma next_prev_round_trip_witness :
  parser_ast demo_st demo_ast ∧
  Orgmode.new demo_ast demo_st = Val (demo_doc, demo_built) ∧
  1%positive ∈ DocObj._outlines demo_doc ∧
  nodes demo_built !! 1%positive = Some demo_node ∧
  NodeObj._index demo_node < OutlinesArrayList.length (DocObj.super demo_doc) - 1 ∧
  ∃ n' nd',
    OutlineNode.next demo_built 1%positive = Val (Obj n') ∧
    OutlinesArrayList.getItem (DocObj.super demo_doc) (NodeObj._index demo_node + 1) = Obj n' ∧
    nodes demo_built !! n' = Some nd' ∧
    NodeObj._index nd' = NodeObj._index demo_node + 1 ∧
    OutlineNode.prev demo_built n' = Val (Obj 1%positive).
Proof.
  assert (Hin : 1%positive ∈ DocObj._outlines demo_doc) by apply list_elem_of_here.
  assert (Hnd : nodes demo_built !! 1%positive = Some demo_node)
    by (vm_compute; reflexivity).
  assert (Hlt : NodeObj._index demo_node
                < OutlinesArrayList.length (DocObj.super demo_doc) - 1)
    by (vm_compute; reflexivity).
  split; [exact demo_parser_ast|]. split; [exact demo_new|].
  split; [exact Hin|]. split; [exact Hnd|]. split; [exact Hlt|].
  exact (proj1 (next_prev_round_trip demo_st demo_ast demo_doc demo_built
                  demo_parser_ast demo_new) 1%positive demo_node Hin Hnd Hlt).
Defined.

Lemma build_wraps_every_entry_witness :
  parser_ast demo_st demo_ast ∧
  ∃ doc st',
    Orgmode.new demo_ast demo_st = Val (doc, st') ∧
    OutlinesArrayList.length (DocObj.super doc) = 2 ∧
    NoDup (DocObj._outlines doc).
Proof.
  split; [exact demo_parser_ast|].
  destruct (build_wraps_every_entry demo_st demo_ast demo_parser_ast)
    as (doc & st' & Hnew & Hlen & Hnd & _).
  exists doc, st'. split; [exact Hnew|]. split; [exact Hlen|exact Hnd].
Defined.

Lemma children_walk_witness :
  parser_ast demo_st demo_ast ∧
  Orgmode.new demo_ast demo_st = Val (demo_doc, demo_built) ∧
  heading_levels demo_st demo_ast = [Some 1; Some 3] ∧
  ∃ n c, OutlinesArrayList.getItem (DocObj.super demo_doc) 0 = Obj n ∧
         (∀ fuel : nat, (2 ≤ fuel)%nat →
            OutlineNode.children fuel demo_built n = Some (Val c)) ∧
         OutlinesArrayList.length c = 1.
Proof.
  assert (Hlv : heading_levels demo_st demo_ast = [Some 1; Some 3])
    by (vm_compute; reflexivity).
  split; [exact demo_parser_ast|]. split; [exact demo_new|]. split; [exact Hlv|].
  exact (proj1 (proj2 (children_walk demo_st demo_ast demo_doc demo_built
                         demo_parser_ast demo_new)) Hlv).
Defined.

Lemma children_contiguous_run_witness :
  parser_ast demo_st demo_ast ∧
  Orgmode.new demo_ast demo_st = Val (demo_doc, demo_built) ∧
  DocObj._outlines demo_doc !! 0%nat = Some 1%positive ∧
  nodes demo_built !! 1%positive = Some demo_node ∧
  ∃ k : nat,
    (1 + k ≤ length (DocObj._outlines demo_doc))%nat ∧
    ∀ fuel : nat, (length (DocObj._outlines demo_doc) ≤ fuel)%nat →
      OutlineNode.children fuel demo_built 1%positive =
        Some (Val (ListObj.mk (take k (drop 1 (DocObj._outlines demo_doc))))).
Proof.
  assert (Hnd : nodes demo_built !! 1%positive = Some demo_node)
    by (vm_compute; reflexivity).
  split; [exact demo_parser_ast|]. split; [exact demo_new|].
  split; [reflexivity|]. split; [exact Hnd|].
  destruct (children_contiguous_run demo_st demo_ast demo_doc demo_built
              0%nat 1%positive demo_node demo_parser_ast demo_new eq_refl Hnd)
    as (k & Hk & Hch & _).
  exists k. split; [exact Hk|exact Hch].
Defined.


Lemma demo_wrapped : Forall (wrapped demo_built) (DocObj._outlines demo_doc).
Proof.
  repeat constructor.
  - exists demo_node. eexists. split; vm_compute; reflexivity.
  - eexists. eexists. split; vm_compute; reflexivity.
Defined.

Lemma tables_is_concatenation_witness :
  Forall (wrapped demo_built) (ListObj._outlines (DocObj.super demo_doc)) ∧
  OutlinesArrayList.tables demo_built (DocObj.super demo_doc) =
    Val (concat (map (section_tables demo_built)
                     (ListObj._outlines (DocObj.super demo_doc)))).
Proof.
  split; [exact demo_wrapped|].
  exact (proj1 (tables_is_concatenation demo_built (DocObj.super demo_doc) demo_wrapped)).
Defined.

Lemma demo_allocated :
  Forall (λ n, is_Some (nodes demo_built !! n)) (DocObj._outlines demo_doc).
Proof. repeat constructor; eexists; vm_compute; reflexivity. Defined.

Lemma findByLevel_exact_witness :
  Forall (λ n, is_Some (nodes demo_built !! n))
         (ListObj._outlines (DocObj.super demo_doc)) ∧
  ∃ r, OutlinesArrayList.findByLevel demo_built (DocObj.super demo_doc) 3 = Val r ∧
       r = filter (λ n, level_of demo_built n = Some 3)
                  (ListObj._outlines (DocObj.super demo_doc)).
Proof.
  split; [exact demo_allocated|].
  destruct (findByLevel_exact demo_built (DocObj.super demo_doc) 3 demo_allocated)
    as (r & Hr & Hf & _).
  exists r. split; [exact Hr|exact Hf].
Defined.

Lemma first_last_absent_on_empty_witness :
  OutlinesArrayList.length (OutlinesArrayList.new None) = 0 ∧
  OutlinesArrayList.first (OutlinesArrayList.new None) = Undefined ∧
  OutlinesArrayList.last (OutlinesArrayList.new None) = Undefined.
Proof.
  split; [reflexivity|].
  destruct (proj1 (first_last_absent_on_empty (OutlinesArrayList.new None)) eq_refl)
    as (Hf & Hl & _).
  split; [exact Hf|exact Hl].
Defined.

Lemma node_fields_after_heading_writes_witness :
  entries demo_st !! 1%positive = Some demo_entry ∧
  OutlineNode.new 1%positive 0 (Some [1%positive; 2%positive]) demo_st =
    Val (1%positive, demo_one) ∧
  ∃ nd,
    nodes demo_one !! 1%positive = Some nd ∧
    NodeObj.tags nd = Heading.tags (Entry.heading demo_entry) ∧
    ∀ x, node_tags (heading_tags_push 1%positive x demo_one) 1%positive =
           (λ a, a ++ [x]) <$> node_tags demo_one 1%positive.
Proof.
  assert (He : entries demo_st !! 1%positive = Some demo_entry)
    by (vm_compute; reflexivity).
  assert (Hnew : OutlineNode.new 1%positive 0 (Some [1%positive; 2%positive]) demo_st =
                   Val (1%positive, demo_one)) by (vm_compute; reflexivity).
  split; [exact He|]. split; [exact Hnew|].
  destruct (node_fields_after_heading_writes demo_st 1%positive 0
              (Some [1%positive; 2%positive]) 1%positive demo_one demo_entry He Hnew)
    as (nd & Hnd & _ & _ & Htags & _ & _ & _ & Hpush).
  exists nd. split; [exact Hnd|]. split; [exact Htags|].
  intros x. exact (proj2 (Hpush x)).
Defined.

(** C9 (as stated, refuted): wrap the first sample heading, whose tags are
    [todo]; then push [done] onto the heading's tags.  The node's tags are
    no longer what they were at construction. *)
Lemma node_tags_follow_heading_counterexample :
  OutlineNode.new 1%positive 0 (Some [1%positive; 2%positive]) demo_st =
    Val (1%positive, demo_one) ∧
  node_tags demo_one 1%positive = Some ["todo"] ∧
  node_tags (heading_tags_push 1%positive "done" demo_one) 1%positive =
    Some ["todo"; "done"] ∧
  node_tags (heading_tags_push 1%positive "done" demo_one) 1%positive ≠
    node_tags demo_one 1%positive.
Proof.
  split; [vm_compute; reflexivity|]. split; [vm_compute; reflexivity|].
  split; [vm_compute; reflexivity|]. vm_compute. discriminate.
Qed.

(** * Further properties of the code *)

(** ** Searches: [findByTags], [findByTitle], [findBlockByName], [getItem] *)

Lemma existsb_tag (tags : string) (a : list string) :
  existsb (λ tag, String.eqb tag tags) a = true ↔ tags ∈ a.
Proof.
  rewrite existsb_exists, list_elem_of_In. split.
  - intros (tag & Hin & Heq). apply String.eqb_eq in Heq. by subst.
  - intros Hin. exists tags. split; [done|]. apply String.eqb_refl.
Qed.

Lemma findByTags_filter st (tags : string) (l : list loc) :
  Forall (λ n, is_Some (node_tags st n)) l →
  filter_cb (λ outline,
               match nodes st !! outline with
               | None => TypeError
               | Some nd =>
                 match arrays st !! NodeObj.tags nd with
                 | None => TypeError
                 | Some a => Val (existsb (λ tag, String.eqb tag tags) a)
                 end
               end) l =
  Val (filter (has_tag st tags) l).
Proof.
  induction l as [|n l IH]; intros Hs; [done|].
  apply Forall_cons in Hs as [[a Ha] Hs]. simpl.
  assert (Hh : has_tag st tags n ↔ tags ∈ a).
  { unfold has_tag. by rewrite Ha. }
  rewrite (IH Hs), filter_cons.
  unfold node_tags in Ha.
  destruct (nodes st !! n) as [nd|]; [|done]. simpl in Ha. rewrite Ha.
  destruct (existsb _ a) eqn:Hex.
  - apply existsb_tag in Hex. rewrite decide_True; [done|by apply Hh].
  - rewrite decide_False; [done|]. intros Hin%Hh%existsb_tag. congruence.
Qed.

(** X1: on a collection of nodes whose tag arrays exist, [findByTags(t)]
    returns, in their original order, exactly the members whose tag array
    holds a string equal to [t]; it returns [] when there is none. *)
Theorem findByTags_exact st (this : ListObj.t) (tags : string) :
  Forall (λ n, is_Some (node_tags st n)) (ListObj._outlines this) →
  ∃ r,
    OutlinesArrayList.findByTags st this tags = Val r ∧
    r = filter (has_tag st tags) (ListObj._outlines this) ∧
    (∀ n, n ∈ r ↔ n ∈ ListObj._outlines this ∧
                   ∃ a, node_tags st n = Some a ∧ tags ∈ a) ∧
    r `sublist_of` ListObj._outlines this ∧
    ((∀ n a, n ∈ ListObj._outlines this → node_tags st n = Some a → tags ∉ a) →
     r = []).
Proof.
  intros Hs. eexists. split; [|split; [reflexivity|split; [|split]]].
  - unfold OutlinesArrayList.findByTags. by apply findByTags_filter.
  - intros n. rewrite list_elem_of_filter. unfold has_tag. split.
    + intros [Ht Hn]. split; [done|].
      destruct (node_tags st n) as [a|]; [|done]. by exists a.
    + intros [Hn (a & Ha & Hin)]. by rewrite Ha.
  - apply sublist_filter.
  - intros Hnone.
    destruct (filter _ (ListObj._outlines this)) as [|n r] eqn:Hr; [done|].
    assert (Hn : n ∈ filter (has_tag st tags) (ListObj._outlines this))
      by (rewrite Hr; left).
    apply list_elem_of_filter in Hn as [Ht Hn]. unfold has_tag in Ht.
    destruct (node_tags st n) as [a|] eqn:Ha; [|done].
    by destruct (Hnone n a Hn Ha).
Qed.

Lemma findByTitle_filter st (title : string) (l : list loc) :
  Forall (λ n, is_Some (nodes st !! n)) l →
  filter_cb (λ outline,
               match nodes st !! outline with
               | None => TypeError
               | Some nd => Val (String.eqb (NodeObj.title nd) title)
               end) l =
  Val (filter (λ n, title_of st n = Some title) l).
Proof.
  induction l as [|n l IH]; intros Hs; [done|].
  apply Forall_cons in Hs as [[nd Hnd] Hs]. simpl.
  assert (Ht : title_of st n = Some (NodeObj.title nd)).
  { unfold title_of. by rewrite Hnd. }
  rewrite Hnd, (IH Hs), filter_cons.
  destruct (String.eqb_spec (NodeObj.title nd) title) as [Heq|Hne].
  - rewrite decide_True; [done|by rewrite Ht, Heq].
  - rewrite decide_False; [done|]. rewrite Ht. intros H. by simplify_eq.
Qed.

(** X2: on a collection of nodes, [findByTitle(t)] returns, in their
    original order, exactly the members whose title is the string [t]
    (the whole title, not a part of it); it returns [] when there is none. *)
Theorem findByTitle_exact st (this : ListObj.t) (title : string) :
  Forall (λ n, is_Some (nodes st !! n)) (ListObj._outlines this) →
  ∃ r,
    OutlinesArrayList.findByTitle st this title = Val r ∧
    r = filter (λ n, title_of st n = Some title) (ListObj._outlines this) ∧
    (∀ n, n ∈ r ↔ n ∈ ListObj._outlines this ∧ title_of st n = Some title) ∧
    r `sublist_of` ListObj._outlines this ∧
    ((∀ n, n ∈ ListObj._outlines this → title_of st n ≠ Some title) → r = []).
Proof.
  intros Hs. eexists. split; [|split; [reflexivity|split; [|split]]].
  - unfold OutlinesArrayList.findByTitle. by apply findByTitle_filter.
  - intros n. rewrite list_elem_of_filter. tauto.
  - apply sublist_filter.
  - intros Hnone.
    destruct (filter _ (ListObj._outlines this)) as [|n r] eqn:Hr; [done|].
    assert (Hn : n ∈ filter (λ n, title_of st n = Some title) (ListObj._outlines this))
      by (rewrite Hr; left).
    apply list_elem_of_filter in Hn as [Hl Hn]. by destruct (Hnone n Hn).
Qed.

Lemma filter_block_name (name : string) (l : list Block.t) :
  List.filter (λ block, String.eqb (Block.name block) name) l =
  filter (λ block, Block.name block = name) l.
Proof.
  induction l as [|b l IH]; [done|].
  simpl. rewrite filter_cons, IH.
  destruct (String.eqb_spec (Block.name b) name) as [Heq|Hne].
  - by rewrite decide_True.
  - by rewrite decide_False.
Qed.

(** X3: [findBlockByName(name)] returns the blocks of the AST whose name is
    the string [name] and no others, in document order, and [] when no
    block has that name; it does not depend on the outlines. *)
Theorem findBlockByName_exact (this : DocObj.t) (name : string) :
  (∀ b, b ∈ Orgmode.findBlockByName this name ↔
        b ∈ Ast.blocks (DocObj._ast this) ∧ Block.name b = name) ∧
  Orgmode.findBlockByName this name `sublist_of` Ast.blocks (DocObj._ast this) ∧
  ((∀ b, b ∈ Ast.blocks (DocObj._ast this) → Block.name b ≠ name) →
   Orgmode.findBlockByName this name = []) ∧
  (∀ outlines,
     Orgmode.findBlockByName (DocObj.mk outlines (DocObj._ast this)) name =
     Orgmode.findBlockByName this name).
Proof.
  unfold Orgmode.findBlockByName. rewrite filter_block_name.
  split; [|split; [|split]].
  - intros b. rewrite list_elem_of_filter. tauto.
  - apply sublist_filter.
  - intros Hnone.
    destruct (filter _ (Ast.blocks (DocObj._ast this))) as [|b r] eqn:Hr; [done|].
    assert (Hb : b ∈ filter (λ block, Block.name block = name)
                        (Ast.blocks (DocObj._ast this))) by (rewrite Hr; left).
    apply list_elem_of_filter in Hb as [Hn Hb]. by destruct (Hnone b Hb).
  - intros outlines. simpl. by rewrite filter_block_name.
Qed.

(** X4: [getItem(n)] never raises: it is an object exactly for the indices
    [0 <= n < length], where it is the member at that index, and
    [undefined] for every other integer. *)
Theorem getItem_in_range_only (this : ListObj.t) (n : Z) :
  (0 ≤ n < OutlinesArrayList.length this →
     ∃ l, ListObj._outlines this !! Z.to_nat n = Some l ∧
          OutlinesArrayList.getItem this n = Obj l) ∧
  (n < 0 ∨ OutlinesArrayList.length this ≤ n →
     OutlinesArrayList.getItem this n = Undefined) ∧
  (∀ l, OutlinesArrayList.getItem this n = Obj l →
        0 ≤ n < OutlinesArrayList.length this) ∧
  OutlinesArrayList.getItem this n ≠ Null.
Proof.
  unfold OutlinesArrayList.getItem, OutlinesArrayList.length, array_get.
  split; [|split; [|split]].
  - intros [H0 Hn]. rewrite decide_True by done.
    destruct (ListObj._outlines this !! Z.to_nat n) as [l|] eqn:Hl.
    + by exists l.
    + apply lookup_ge_None in Hl. lia.
  - intros [Hneg|Hge].
    + by rewrite decide_False by lia.
    + destruct (decide (0 ≤ n)); [|done].
      by rewrite (proj2 (lookup_ge_None _ _)) by lia.
  - intros l. destruct (decide (0 ≤ n)); [|done].
    destruct (ListObj._outlines this !! Z.to_nat n) eqn:Hl; [|done].
    apply lookup_lt_Some in Hl. lia.
  - destruct (decide (0 ≤ n)); [|done].
    by destruct (ListObj._outlines this !! Z.to_nat n).
Qed.

(** X5: the own keys of [overview] are exactly the lower-cased option
    names other than [__proto__]: a key is present if and only if it is not
    [__proto__] and some option's lower-cased name is that key, and the
    value stored under it is then the value of one of those options. *)
Theorem overview_keys (toLowerCase : string → string) (doc : DocObj.t) (key : string) :
  (is_Some (Orgmode.overview toLowerCase doc !! key) ↔
   key ≠ "__proto__" ∧
   ∃ item, item ∈ Ast.options (DocObj._ast doc) ∧
           toLowerCase (Opt.name item) = key) ∧
  (∀ v, Orgmode.overview toLowerCase doc !! key = Some v →
        ∃ item, item ∈ Ast.options (DocObj._ast doc) ∧
                toLowerCase (Opt.name item) = key ∧ Opt.value item = v).
Proof.
  unfold Orgmode.overview.
  destruct (decide (key = "__proto__")) as [->|Hkey].
  { rewrite overview_fold_proto, lookup_empty. split.
    - split; [by intros [? ?]|by intros [? _]].
    - intros v Hv. done. }
  rewrite overview_fold_lookup by done.
  destruct (last (filter _ (Ast.options (DocObj._ast doc)))) as [item|] eqn:Hlast.
  - assert (Hin : item ∈ filter (λ item, toLowerCase (Opt.name item) = key)
                           (Ast.options (DocObj._ast doc))).
    { apply last_Some in Hlast as [l' ->]. apply elem_of_app. right. left. }
    apply list_elem_of_filter in Hin as [Hk Hin]. split.
    + split; [intros _; split; [done|by exists item]|by eexists].
    + intros v Hv. simplify_eq. by exists item.
  - rewrite lookup_empty. split.
    + split; [by intros [? ?]|]. intros (_ & item & Hin & Hk).
      assert (Hf : item ∈ filter (λ item, toLowerCase (Opt.name item) = key)
                            (Ast.options (DocObj._ast doc)))
        by (by apply list_elem_of_filter).
      apply last_None in Hlast. rewrite Hlast in Hf. by apply elem_of_nil in Hf.
    + intros v Hv. done.
Qed.

(** ** Construction: when it returns, and what it leaves alone *)

(** One step of the map of [_buildOutlines], read backwards. *)
Lemma map_outlines_cons_inv outlines index data rest ns st st' :
  Orgmode.map_outlines outlines index (data :: rest) st = Val (ns, st') →
  ∃ e l e' ns',
    entries st !! data = Some e ∧
    outlines !! index = Some l ∧
    entries st !! l = Some e' ∧
    Entry._node e' = None ∧
    ns = fresh (dom (nodes st)) :: ns' ∧
    Orgmode.map_outlines outlines (S index) rest
      (set_entries (insert l (Entry.mk (Entry.heading e') (Entry.section e')
                                       (Some (fresh (dom (nodes st))))))
         (set_nodes (insert (fresh (dom (nodes st)))
                            (wrapper outlines index data e)) st)) = Val (ns', st').
Proof.
  simpl. unfold bind at 1. unfold OutlineNode.new.
  destruct (entries st !! data) as [e|] eqn:He; [|done].
  unfold bind at 1. rewrite array_get_nat. unfold Orgmode.defineProperty_node.
  destruct (outlines !! index) as [l|] eqn:Hl; [|done].
  cbn [entries set_nodes].
  destruct (entries st !! l) as [e'|] eqn:He'; [|done].
  destruct (Entry._node e') eqn:Hnode; [done|].
  unfold bind at 1.
  destruct (Orgmode.map_outlines outlines (S index) rest _) as [[ns' st'']|] eqn:Hrest;
    [|done].
  unfold ret. intros H. simplify_eq.
  exists e, l, e', ns'. by repeat split.
Qed.

(** If the map returns, the entries it went through were pairwise distinct
    and undecorated. *)
Lemma map_outlines_val_inv outlines rest : ∀ index st ns st',
  (∀ k data, rest !! k = Some data → outlines !! (index + k)%nat = Some data) →
  Orgmode.map_outlines outlines index rest st = Val (ns, st') →
  NoDup rest ∧ Forall (undecorated st) rest.
Proof.
  induction rest as [|data rest IH]; intros index st ns st' Hpos Hrun.
  - split; constructor.
  - apply map_outlines_cons_inv in Hrun
      as (e & l & e' & ns' & He & Hl & He' & Hnode & -> & Hrest).
    assert (l = data) as ->.
    { specialize (Hpos 0%nat data eq_refl). rewrite Nat.add_0_r in Hpos. congruence. }
    assert (e' = e) as -> by congruence.
    apply IH in Hrest as [Hnd Hun].
    2:{ intros k d Hk. specialize (Hpos (S k) d Hk).
        by replace (S index + k)%nat with (index + S k)%nat by lia. }
    assert (Hnotin : data ∉ rest).
    { intros Hin. rewrite Forall_forall in Hun. specialize (Hun data Hin).
      unfold undecorated in Hun. simpl in Hun. by rewrite lookup_insert_eq in Hun. }
    split; [by constructor|]. constructor.
    + unfold undecorated. by rewrite He.
    + apply Forall_forall. intros d Hd.
      rewrite Forall_forall in Hun. specialize (Hun d Hd).
      unfold undecorated in *. simpl in Hun.
      rewrite lookup_insert_ne in Hun; [done|]. by intros ->.
Qed.

(** The nodes that the map returns are fresh, and it allocates no others. *)
Lemma map_outlines_fresh outlines rest : ∀ index st ns st',
  Orgmode.map_outlines outlines index rest st = Val (ns, st') →
  (∀ n, n ∈ ns → nodes st !! n = None) ∧
  (∀ m, is_Some (nodes st' !! m) → m ∈ ns ∨ is_Some (nodes st !! m)).
Proof.
  induction rest as [|data rest IH]; intros index st ns st' Hrun.
  - simpl in Hrun. unfold ret in Hrun. simplify_eq. split.
    + by intros n Hn%elem_of_nil.
    + intros m Hm. by right.
  - apply map_outlines_cons_inv in Hrun
      as (e & l & e' & ns' & He & Hl & He' & Hnode & -> & Hrest).
    apply IH in Hrest as [Hfresh Honly]. simpl in Hfresh, Honly. split.
    + intros n [->|Hn]%elem_of_cons; [apply fresh_node_None|].
      specialize (Hfresh n Hn). by apply lookup_insert_None in Hfresh as [? _].
    + intros m Hm. destruct (Honly m Hm) as [Hin|Hold].
      * left. by right.
      * destruct (decide (m = fresh (dom (nodes st)))) as [->|Hne]; [left; left|].
        right. by rewrite lookup_insert_ne in Hold.
Qed.

Lemma new_val_parser_ast st ast doc st' :
  Orgmode.new ast st = Val (doc, st') → parser_ast st ast.
Proof.
  unfold Orgmode.new, Orgmode._buildOutlines. unfold bind at 1.
  destruct (Orgmode.map_outlines _ _ _ st) as [[ns st'']|] eqn:Hrun; [|done].
  intros _. by apply map_outlines_val_inv in Hrun.
Qed.

(** X6: an entry listed twice in [outlines] makes construction raise: if
    every outline entry is a fresh entry (without [_node]) but the entries
    are not pairwise distinct, [new Orgmode] raises [TypeError], because the
    second visit of the entry finds the [_node] that the first one defined. *)
Theorem duplicate_entry_raises st ast :
  Forall (undecorated st) (Ast.outlines ast) →
  ¬ NoDup (Ast.outlines ast) →
  Orgmode.new ast st = TypeError.
Proof.
  intros _ Hdup. destruct (Orgmode.new ast st) as [[doc st']|] eqn:Hnew; [|done].
  destruct Hdup. by destruct (new_val_parser_ast _ _ _ _ Hnew).
Qed.

(** X7: a document can be built only once from an AST that has a heading:
    after a construction that returned, constructing again from the same
    AST raises [TypeError], because [_node] is already defined on the
    entries and cannot be redefined. *)
Theorem rebuild_raises st ast doc st' :
  Ast.outlines ast ≠ [] →
  Orgmode.new ast st = Val (doc, st') →
  Orgmode.new ast st' = TypeError.
Proof.
  intros Hne Hnew.
  pose proof (new_val_parser_ast _ _ _ _ Hnew) as Hp.
  destruct (new_built_inv _ _ _ _ Hp Hnew) as (_ & Hb & _).
  destruct (Orgmode.new ast st') as [[doc2 st2]|] eqn:Hnew2; [|done].
  exfalso.
  destruct (new_val_parser_ast _ _ _ _ Hnew2) as [_ Hun].
  destruct (Ast.outlines ast) as [|data rest] eqn:Hout; [done|].
  apply Forall_cons in Hun as [Hd _].
  destruct (built_at _ _ _ Hb 0%nat data) as (n & e & _ & He & Hnode & _);
    [by rewrite Hout|].
  unfold undecorated in Hd. rewrite He in Hd. congruence.
Qed.

(** What construction changes in the store, and what it leaves alone. *)
Lemma new_frame st ast doc st' :
  Orgmode.new ast st = Val (doc, st') →
  arrays st' = arrays st ∧
  (∀ l, l ∉ Ast.outlines ast → entries st' !! l = entries st !! l) ∧
  (∀ (i : nat) data, Ast.outlines ast !! i = Some data →
     ∃ e n, DocObj._outlines doc !! i = Some n ∧
            entries st !! data = Some e ∧
            entries st' !! data =
              Some (Entry.mk (Entry.heading e) (Entry.section e) (Some n))) ∧
  (∀ m nd, nodes st !! m = Some nd → nodes st' !! m = Some nd) ∧
  (∀ n, n ∈ DocObj._outlines doc → nodes st !! n = None) ∧
  (∀ m, is_Some (nodes st' !! m) →
        m ∈ DocObj._outlines doc ∨ is_Some (nodes st !! m)).
Proof.
  intros Hnew. destruct (new_val_parser_ast _ _ _ _ Hnew) as [Hnd Hun].
  destruct (map_outlines_spec (Ast.outlines ast) (Ast.outlines ast) 0%nat st)
    as (ns & st2 & Hrun & Harr & Hlen & Hent & Hnod & Hwrap); [by intros k d Hk|done|done|].
  destruct (map_outlines_fresh _ _ _ _ _ _ Hrun) as [Hfresh Honly].
  unfold Orgmode.new, Orgmode._buildOutlines in Hnew.
  erewrite bind_val in Hnew; [|exact Hrun]. unfold ret in Hnew. simplify_eq. simpl.
  repeat split; try done.
  intros i data Hi. destruct (Hwrap i data Hi) as (n & e & Hn & He & He' & _).
  by exists e, n.
Qed.

(** X8: construction only decorates.  It leaves every tag array, every
    entry outside [outlines] and every node that existed before as they
    were; on an outline entry it changes nothing but [_node] (heading and
    section stay); and the nodes of the document are new objects, the only
    ones it allocates. *)
Theorem build_only_decorates st ast doc st' :
  Orgmode.new ast st = Val (doc, st') →
  arrays st' = arrays st ∧
  (∀ l, l ∉ Ast.outlines ast → entries st' !! l = entries st !! l) ∧
  (∀ data, data ∈ Ast.outlines ast →
     ∃ e e', entries st !! data = Some e ∧ entries st' !! data = Some e' ∧
             Entry.heading e' = Entry.heading e ∧
             Entry.section e' = Entry.section e ∧
             Entry._node e = None ∧
             ∃ n, Entry._node e' = Some n ∧ n ∈ DocObj._outlines doc) ∧
  (∀ m nd, nodes st !! m = Some nd → nodes st' !! m = Some nd) ∧
  (∀ n, n ∈ DocObj._outlines doc → nodes st !! n = None) ∧
  (∀ m, is_Some (nodes st' !! m) →
        m ∈ DocObj._outlines doc ∨ is_Some (nodes st !! m)).
Proof.
  intros Hnew.
  destruct (new_frame _ _ _ _ Hnew) as (Harr & Hent & Hdec & Hold & Hfresh & Honly).
  destruct (new_val_parser_ast _ _ _ _ Hnew) as [_ Hun].
  repeat split; try done.
  intros data [i Hi]%list_elem_of_lookup_1.
  destruct (Hdec i data Hi) as (e & n & Hn & He & He').
  rewrite Forall_forall in Hun.
  assert (Hund : undecorated st data) by (apply Hun; by eapply list_elem_of_lookup_2).
  unfold undecorated in Hund. rewrite He in Hund.
  exists e, (Entry.mk (Entry.heading e) (Entry.section e) (Some n)).
  split; [done|]. split; [done|]. split; [done|]. split; [done|]. split; [done|].
  exists n. split; [done|]. by eapply list_elem_of_lookup_2.
Qed.

(** ** Navigation and hierarchy in a built document *)

(** X9: in a built document, [toJSON()] of the node at index [i] is the
    reference to the [i]-th AST entry itself, and that entry's [_node] is
    this very node: entry and wrapper point at each other. *)
Theorem toJSON_is_the_entry st ast doc st' (i : nat) n :
  Orgmode.new ast st = Val (doc, st') →
  DocObj._outlines doc !! i = Some n →
  ∃ data,
    Ast.outlines ast !! i = Some data ∧
    OutlineNode.toJSON st' n = Val data ∧
    OutlineNode.entry_node st' (Some data) = Val (Obj n).
Proof.
  intros Hnew Hn. pose proof (new_val_parser_ast _ _ _ _ Hnew) as Hp.
  destruct (new_built_inv _ _ _ _ Hp Hnew) as (_ & Hb & _).
  destruct (built_lookup _ _ _ Hb i n Hn) as (data & e & Hd & He & Hnode & Hw).
  exists data. split; [done|]. split.
  - unfold OutlineNode.toJSON. by rewrite Hw.
  - unfold OutlineNode.entry_node. by rewrite He, Hnode.
Qed.

(** X10: in a built document, for every node [n] whose position is at
    least 1, [n.prev()] is the node stored at position [n.position - 1],
    and [next()] of that node is the very node [n]; so [prev()] raises at
    position 0 only. *)
Theorem prev_next_round_trip st ast doc st' n nd :
  Orgmode.new ast st = Val (doc, st') →
  n ∈ DocObj._outlines doc →
  nodes st' !! n = Some nd →
  0 < NodeObj._index nd →
  ∃ m md,
    OutlineNode.prev st' n = Val (Obj m) ∧
    OutlinesArrayList.getItem (DocObj.super doc) (NodeObj._index nd - 1) = Obj m ∧
    nodes st' !! m = Some md ∧
    NodeObj._index md = NodeObj._index nd - 1 ∧
    OutlineNode.next st' m = Val (Obj n).
Proof.
  intros Hnew [i Hi]%list_elem_of_lookup_1 Hnd Hpos.
  pose proof (new_val_parser_ast _ _ _ _ Hnew) as Hp.
  destruct (new_built_inv _ _ _ _ Hp Hnew) as (_ & Hb & _).
  destruct (built_index _ _ _ Hb i n nd Hi Hnd) as [Hidx _].
  destruct i as [|i]; [lia|].
  apply lookup_lt_Some in Hi as Hlt.
  destruct (DocObj._outlines doc !! i) as [m|] eqn:Hm;
    [|apply lookup_ge_None in Hm; lia].
  destruct (built_lookup _ _ _ Hb i m Hm) as (data & e & _ & _ & _ & Hw).
  exists m, (wrapper (Ast.outlines ast) i data e).
  split; [|split; [|split; [done|split]]].
  - by eapply prev_built_succ.
  - rewrite Hidx. replace (Z.of_nat (S i) - 1) with (Z.of_nat i) by lia.
    rewrite getItem_nat. simpl. by rewrite Hm.
  - simpl. lia.
  - by rewrite (next_built _ _ _ Hb i m Hm), Hi.
Qed.

(** X11: in a built document, the children of a child are nested in the
    parent's children: if [c] is a member of [n.children()], then
    [c.children()] is the run of members of [n.children()] that comes right
    after [c]. *)
Theorem children_nest st ast doc st' (i : nat) n c (fuel : nat) cs cs' :
  Orgmode.new ast st = Val (doc, st') →
  DocObj._outlines doc !! i = Some n →
  (length (DocObj._outlines doc) ≤ fuel)%nat →
  OutlineNode.children fuel st' n = Some (Val cs) →
  c ∈ ListObj._outlines cs →
  OutlineNode.children fuel st' c = Some (Val cs') →
  ∃ before after,
    ListObj._outlines cs = before ++ c :: ListObj._outlines cs' ++ after.
Proof.
  intros Hnew Hn Hfuel Hcs Hc Hcs'.
  pose proof (new_val_parser_ast _ _ _ _ Hnew) as Hp.
  destruct (new_built_inv _ _ _ _ Hp Hnew) as (_ & Hb & _).
  set (ns := DocObj._outlines doc) in *.
  destruct (built_lookup _ _ _ Hb i n Hn) as (dn & en & _ & _ & _ & Hwn).
  rewrite (children_built _ _ _ Hb i n _ fuel Hn Hwn) in Hcs by lia.
  simplify_eq. cbn [ListObj._outlines wrapper NodeObj.level] in *.
  set (lvn := Heading.level (Entry.heading en)) in *.
  destruct (descendants_take st' lvn (drop (S i) ns)) as (k & Hk & Hd & Hin & Hout).
  rewrite Hd in Hc |- *.
  apply list_elem_of_lookup_1 in Hc as [j0 Hj0].
  apply lookup_lt_Some in Hj0 as Hj0k. rewrite length_take in Hj0k.
  rewrite lookup_take_lt in Hj0 by lia.
  assert (Hcj : ns !! (S i + j0)%nat = Some c) by (by rewrite lookup_drop in Hj0).
  destruct (built_lookup _ _ _ Hb _ c Hcj) as (dc & ec & _ & _ & _ & Hwc).
  rewrite (children_built _ _ _ Hb _ c _ fuel Hcj Hwc) in Hcs' by lia.
  simplify_eq. cbn [ListObj._outlines wrapper NodeObj.level] in *.
  set (lvc := Heading.level (Entry.heading ec)) in *.
  assert (Hlv : lvc > lvn).
  { destruct (Hin j0 c) as (z & Hz & Hgt); [lia|done|].
    unfold level_of in Hz. rewrite Hwc in Hz. simpl in Hz. by simplify_eq. }
  destruct (descendants_take st' lvc (drop (S (S i + j0)) ns))
    as (k' & Hk' & Hd' & Hin' & Hout').
  change (S (S (i + j0))) with (S (S i + j0)).
  rewrite Hd'.
  assert (Hbound : (j0 + 1 + k' ≤ k)%nat).
  { destruct (decide (j0 + 1 + k' ≤ k)%nat) as [|Hgt]; [done|]. exfalso.
    assert (Ht : (k - (j0 + 1) < k')%nat) by lia.
    destruct (drop (S (S i + j0)) ns !! (k - (j0 + 1))%nat) as [x|] eqn:Hx;
      [|apply lookup_ge_None in Hx; lia].
    destruct (Hin' _ x Ht Hx) as (z & Hz & Hzgt).
    assert (Hxk : drop (S i) ns !! k = Some x).
    { rewrite lookup_drop in Hx |- *. rewrite <- Hx. f_equal. lia. }
    specialize (Hout x z Hxk Hz). lia. }
  exists (take j0 (drop (S i) ns)),
         (take (k - (j0 + 1) - k') (drop k' (drop (S (S i + j0)) ns))).
  replace k with (j0 + S (k' + (k - (j0 + 1) - k')))%nat at 1 by lia.
  rewrite <- take_take_drop. f_equal.
  rewrite (drop_S _ _ _ Hj0). simpl. f_equal.
  rewrite drop_drop.
  replace (S i + S j0)%nat with (S (S i + j0)) by lia.
  by rewrite take_take_drop.
Qed.

Lemma built_wrapped st ast ns :
  built st ast ns → Forall (wrapped st) ns.
Proof.
  intros Hb. apply Forall_forall. intros n [i Hi]%list_elem_of_lookup_1.
  destruct (built_lookup _ _ _ Hb i n Hi) as (data & e & _ & He & _ & Hw).
  eexists _, e. split; [exact Hw|done].
Qed.

(** X12: the [tables] of a built document are the table children of the
    sections of the AST, entry by entry in source order, as the AST had
    them before construction. *)
Theorem document_tables_from_ast st ast doc st' :
  Orgmode.new ast st = Val (doc, st') →
  OutlinesArrayList.tables st' (DocObj.super doc) =
    Val (concat (map (entry_tables st) (Ast.outlines ast))).
Proof.
  intros Hnew. pose proof (new_val_parser_ast _ _ _ _ Hnew) as Hp.
  destruct (new_built_inv _ _ _ _ Hp Hnew) as (_ & Hb & _).
  destruct (new_frame _ _ _ _ Hnew) as (_ & _ & Hdec & _).
  unfold OutlinesArrayList.tables. simpl.
  rewrite tables_reduce by (by eapply built_wrapped). simpl. do 2 f_equal.
  apply list_eq. intros i. rewrite !list_lookup_fmap.
  destruct (Ast.outlines ast !! i) as [data|] eqn:Hi.
  - destruct (Hdec i data Hi) as (e & n & Hn & He & He'). rewrite Hn. simpl. f_equal.
    destruct (built_lookup _ _ _ Hb i n Hn) as (d2 & e2 & Hd2 & _ & _ & Hw).
    assert (d2 = data) as -> by congruence.
    unfold section_tables, entry_tables. by rewrite Hw, He; simpl; rewrite He'.
  - apply lookup_ge_None in Hi. rewrite <- (built_length _ _ _ Hb) in Hi.
    by rewrite (proj2 (lookup_ge_None _ _)).
Qed.

(** X13: the searches read the wrapper.  In a built document whose tag
    arrays exist, a tag pushed onto the tags of the [i]-th AST heading
    after construction is found by [findByTags]: the result contains the
    node at index [i].  A title or level assigned to a heading after
    construction is not: [findByTitle] and [findByLevel] answer as before. *)
Theorem searches_read_the_wrapper st ast doc st' (i : nat) data n (x : string) :
  Orgmode.new ast st = Val (doc, st') →
  Ast.outlines ast !! i = Some data →
  DocObj._outlines doc !! i = Some n →
  Forall (λ m, is_Some (node_tags st' m)) (DocObj._outlines doc) →
  (∃ r, OutlinesArrayList.findByTags (heading_tags_push data x st')
          (DocObj.super doc) x = Val r ∧ n ∈ r) ∧
  (∀ s title,
     OutlinesArrayList.findByTitle (set_heading_title data s st')
       (DocObj.super doc) title =
     OutlinesArrayList.findByTitle st' (DocObj.super doc) title) ∧
  (∀ z level,
     OutlinesArrayList.findByLevel (set_heading_level data z st')
       (DocObj.super doc) level =
     OutlinesArrayList.findByLevel st' (DocObj.super doc) level).
Proof.
  intros Hnew Hdata Hn Htags. split; [|split; done].
  pose proof (new_val_parser_ast _ _ _ _ Hnew) as Hp.
  destruct (new_built_inv _ _ _ _ Hp Hnew) as (_ & Hb & _).
  destruct (built_lookup _ _ _ Hb i n Hn) as (d2 & e & Hd2 & He & _ & Hw).
  assert (d2 = data) as -> by congruence.
  assert (Hst : heading_tags_push data x st' =
                set_arrays (alter (λ a, a ++ [x]) (Heading.tags (Entry.heading e))) st').
  { unfold heading_tags_push. by rewrite He. }
  rewrite Hst.
  set (st2 := set_arrays (alter (λ a, a ++ [x]) (Heading.tags (Entry.heading e))) st').
  assert (Htags2 : Forall (λ m, is_Some (node_tags st2 m)) (DocObj._outlines doc)).
  { apply Forall_forall. intros m Hm. rewrite Forall_forall in Htags.
    destruct (Htags m Hm) as [a Ha]. unfold node_tags in *. simpl.
    destruct (nodes st' !! m) as [md|]; [|done]. simpl in *.
    destruct (decide (Heading.tags (Entry.heading e) = NodeObj.tags md)) as [Heq|Hne].
    - rewrite Heq, lookup_alter_eq, Ha. by eexists.
    - rewrite lookup_alter_ne by done. by eexists. }
  eexists. split.
  - exact (findByTags_filter st2 x _ Htags2).
  - apply list_elem_of_filter. split; [|by eapply list_elem_of_lookup_2].
    rewrite Forall_forall in Htags.
    destruct (Htags n) as [a Ha]; [by eapply list_elem_of_lookup_2|].
    unfold has_tag, node_tags in *. simpl. rewrite Hw in Ha |- *. simpl in *.
    rewrite lookup_alter_eq, Ha. simpl. apply elem_of_app. right. left.
Qed.

(** X14: [findByLevel(L)] on a built document returns the wrappers of
    exactly the headings whose level in the AST is [L]: the node at index
    [i] is in the result if and only if the [i]-th AST heading has level
    [L]. *)
Theorem document_findByLevel_from_ast st ast doc st' (level : Z) :
  Orgmode.new ast st = Val (doc, st') →
  ∃ r,
    OutlinesArrayList.findByLevel st' (DocObj.super doc) level = Val r ∧
    r `sublist_of` DocObj._outlines doc ∧
    ∀ (i : nat) n, DocObj._outlines doc !! i = Some n →
      (n ∈ r ↔ heading_levels st ast !! i = Some (Some level)).
Proof.
  intros Hnew. pose proof (new_val_parser_ast _ _ _ _ Hnew) as Hp.
  destruct (new_built_inv _ _ _ _ Hp Hnew) as (_ & Hb & _ & Hlv).
  assert (Hs : Forall (λ n, is_Some (nodes st' !! n)) (DocObj._outlines doc)).
  { apply Forall_forall. intros n [i Hi]%list_elem_of_lookup_1.
    destruct (built_lookup _ _ _ Hb i n Hi) as (data & e & _ & _ & _ & Hw).
    by eexists. }
  eexists. split; [exact (findByLevel_filter st' level _ Hs)|].
  split; [apply sublist_filter|].
  intros i n Hi. rewrite list_elem_of_filter, <- Hlv.
  rewrite (built_level_of _ _ _ i n Hb Hi). split.
  - intros [Hl _]. by rewrite Hl.
  - intros Hl. split; [by simplify_eq|by eapply list_elem_of_lookup_2].
Qed.

(** ** The further properties on the sample document *)

Lemma demo_tag_arrays :
  Forall (λ n, is_Some (node_tags demo_built n)) (DocObj._outlines demo_doc).
Proof. repeat constructor; eexists; vm_compute; reflexivity. Defined.

Lemma findByTags_exact_witness :
  Forall (λ n, is_Some (node_tags demo_built n))
         (ListObj._outlines (DocObj.super demo_doc)) ∧
  ∃ r, OutlinesArrayList.findByTags demo_built (DocObj.super demo_doc) "todo" = Val r ∧
       r = filter (has_tag demo_built "todo")
                  (ListObj._outlines (DocObj.super demo_doc)).
Proof.
  split; [exact demo_tag_arrays|].
  destruct (findByTags_exact demo_built (DocObj.super demo_doc) "todo" demo_tag_arrays)
    as (r & Hr & Hf & _).
  exists r. split; [exact Hr|exact Hf].
Defined.

Lemma findByTitle_exact_witness :
  Forall (λ n, is_Some (nodes demo_built !! n))
         (ListObj._outlines (DocObj.super demo_doc)) ∧
  ∃ r, OutlinesArrayList.findByTitle demo_built (DocObj.super demo_doc) "Intro" = Val r ∧
       r = filter (λ n, title_of demo_built n = Some "Intro")
                  (ListObj._outlines (DocObj.super demo_doc)).
Proof.
  split; [exact demo_allocated|].
  destruct (findByTitle_exact demo_built (DocObj.super demo_doc) "Intro" demo_allocated)
    as (r & Hr & Hf & _).
  exists r. split; [exact Hr|exact Hf].
Defined.

Lemma duplicate_entry_raises_witness :
  Forall (undecorated demo_st) (Ast.outlines (Ast.mk [1%positive; 1%positive] [] [])) ∧
  ¬ NoDup (Ast.outlines (Ast.mk [1%positive; 1%positive] [] [])) ∧
  Orgmode.new (Ast.mk [1%positive; 1%positive] [] []) demo_st = TypeError.
Proof.
  assert (Hun : Forall (undecorated demo_st)
                       (Ast.outlines (Ast.mk [1%positive; 1%positive] [] [])))
    by (repeat constructor).
  assert (Hdup : ¬ NoDup (Ast.outlines (Ast.mk [1%positive; 1%positive] [] []))).
  { intros Hnd. apply NoDup_cons in Hnd as [Hnotin _]. apply Hnotin. left. }
  split; [exact Hun|]. split; [exact Hdup|].
  exact (duplicate_entry_raises demo_st (Ast.mk [1%positive; 1%positive] [] [])
           Hun Hdup).
Defined.

Lemma rebuild_raises_witness :
  Ast.outlines demo_ast ≠ [] ∧
  Orgmode.new demo_ast demo_st = Val (demo_doc, demo_built) ∧
  Orgmode.new demo_ast demo_built = TypeError.
Proof.
  assert (Hne : Ast.outlines demo_ast ≠ []) by discriminate.
  split; [exact Hne|]. split; [exact demo_new|].
  exact (rebuild_raises demo_st demo_ast demo_doc demo_built Hne demo_new).
Defined.

Lemma build_only_decorates_witness :
  Orgmode.new demo_ast demo_st = Val (demo_doc, demo_built) ∧
  arrays demo_built = arrays demo_st ∧
  ∀ n, n ∈ DocObj._outlines demo_doc → nodes demo_st !! n = None.
Proof.
  split; [exact demo_new|].
  destruct (build_only_decorates demo_st demo_ast demo_doc demo_built demo_new)
    as (Harr & _ & _ & _ & Hfresh & _).
  split; [exact Harr|exact Hfresh].
Defined.

Lemma toJSON_is_the_entry_witness :
  Orgmode.new demo_ast demo_st = Val (demo_doc, demo_built) ∧
  DocObj._outlines demo_doc !! 1%nat = Some 2%positive ∧
  ∃ data,
    Ast.outlines demo_ast !! 1%nat = Some data ∧
    OutlineNode.toJSON demo_built 2%positive = Val data ∧
    OutlineNode.entry_node demo_built (Some data) = Val (Obj 2%positive).
Proof.
  split; [exact demo_new|]. split; [reflexivity|].
  exact (toJSON_is_the_entry demo_st demo_ast demo_doc demo_built 1%nat 2%positive
           demo_new eq_refl).
Defined.

Lemma prev_next_round_trip_witness :
  Orgmode.new demo_ast demo_st = Val (demo_doc, demo_built) ∧
  2%positive ∈ DocObj._outlines demo_doc ∧
  nodes demo_built !! 2%positive = Some demo_node2 ∧
  0 < NodeObj._index demo_node2 ∧
  ∃ m md,
    OutlineNode.prev demo_built 2%positive = Val (Obj m) ∧
    OutlinesArrayList.getItem (DocObj.super demo_doc) (NodeObj._index demo_node2 - 1) = Obj m ∧
    nodes demo_built !! m = Some md ∧
    NodeObj._index md = NodeObj._index demo_node2 - 1 ∧
    OutlineNode.next demo_built m = Val (Obj 2%positive).
Proof.
  assert (Hin : 2%positive ∈ DocObj._outlines demo_doc)
    by (apply list_elem_of_further, list_elem_of_here).
  assert (Hnd : nodes demo_built !! 2%positive = Some demo_node2)
    by (vm_compute; reflexivity).
  assert (Hpos : 0 < NodeObj._index demo_node2) by (vm_compute; reflexivity).
  split; [exact demo_new|]. split; [exact Hin|]. split; [exact Hnd|].
  split; [exact Hpos|].
  exact (prev_next_round_trip demo_st demo_ast demo_doc demo_built 2%positive
           demo_node2 demo_new Hin Hnd Hpos).
Defined.

Lemma nest_new : Orgmode.new nest_ast nest_st = Val (nest_doc, nest_built).
Proof. vm_compute. reflexivity. Defined.

Lemma children_nest_witness :
  Orgmode.new nest_ast nest_st = Val (nest_doc, nest_built) ∧
  DocObj._outlines nest_doc !! 0%nat = Some 1%positive ∧
  (length (DocObj._outlines nest_doc) ≤ 6)%nat ∧
  OutlineNode.children 6 nest_built 1%positive =
    Some (Val (ListObj.mk [2%positive; 3%positive; 4%positive])) ∧
  2%positive ∈ ListObj._outlines (ListObj.mk [2%positive; 3%positive; 4%positive]) ∧
  OutlineNode.children 6 nest_built 2%positive = Some (Val (ListObj.mk [3%positive])) ∧
  ∃ before after,
    ListObj._outlines (ListObj.mk [2%positive; 3%positive; 4%positive]) =
      before ++ 2%positive :: ListObj._outlines (ListObj.mk [3%positive]) ++ after.
Proof.
  assert (Hlen : (length (DocObj._outlines nest_doc) ≤ 6)%nat) by (simpl; lia).
  assert (Hcs : OutlineNode.children 6 nest_built 1%positive =
                  Some (Val (ListObj.mk [2%positive; 3%positive; 4%positive])))
    by (vm_compute; reflexivity).
  assert (Hc : 2%positive ∈
               ListObj._outlines (ListObj.mk [2%positive; 3%positive; 4%positive]))
    by apply list_elem_of_here.
  assert (Hcs' : OutlineNode.children 6 nest_built 2%positive =
                   Some (Val (ListObj.mk [3%positive]))) by (vm_compute; reflexivity).
  split; [exact nest_new|]. split; [reflexivity|]. split; [exact Hlen|].
  split; [exact Hcs|]. split; [exact Hc|]. split; [exact Hcs'|].
  exact (children_nest nest_st nest_ast nest_doc nest_built 0%nat 1%positive
           2%positive 6%nat _ _ nest_new eq_refl Hlen Hcs Hc Hcs').
Defined.

Lemma document_tables_from_ast_witness :
  Orgmode.new demo_ast demo_st = Val (demo_doc, demo_built) ∧
  OutlinesArrayList.tables demo_built (DocObj.super demo_doc) =
    Val (concat (map (entry_tables demo_st) (Ast.outlines demo_ast))).
Proof.
  split; [exact demo_new|].
  exact (document_tables_from_ast demo_st demo_ast demo_doc demo_built demo_new).
Defined.

Lemma searches_read_the_wrapper_witness :
  Orgmode.new demo_ast demo_st = Val (demo_doc, demo_built) ∧
  Ast.outlines demo_ast !! 0%nat = Some 1%positive ∧
  DocObj._outlines demo_doc !! 0%nat = Some 1%positive ∧
  Forall (λ m, is_Some (node_tags demo_built m)) (DocObj._outlines demo_doc) ∧
  ∃ r, OutlinesArrayList.findByTags (heading_tags_push 1%positive "done" demo_built)
         (DocObj.super demo_doc) "done" = Val r ∧ 1%positive ∈ r.
Proof.
  split; [exact demo_new|]. split; [reflexivity|]. split; [reflexivity|].
  split; [exact demo_tag_arrays|].
  exact (proj1 (searches_read_the_wrapper demo_st demo_ast demo_doc demo_built
                  0%nat 1%positive 1%positive "done" demo_new eq_refl eq_refl
                  demo_tag_arrays)).
Defined.

Lemma document_findByLevel_from_ast_witness :
  Orgmode.new demo_ast demo_st = Val (demo_doc, demo_built) ∧
  ∃ r, OutlinesArrayList.findByLevel demo_built (DocObj.super demo_doc) 3 = Val r ∧
       r `sublist_of` DocObj._outlines demo_doc.
Proof.
  split; [exact demo_new|].
  destruct (document_findByLevel_from_ast demo_st demo_ast demo_doc demo_built 3 demo_new)
    as (r & Hr & Hsub & _).
  exists r. split; [exact Hr|exact Hsub].
Defined.
